(** * UserRankings: the daily leaderboard component

    A shallow embedding of [src/components/leaderboard/UserRankings.tsx]:
    the fetch cycle ([fetchRankings]), the day navigation
    ([handlePrevDay], [handleNextDay]) and the like action ([handleLike]).

    Modelling conventions.
    - A JavaScript [number] that holds a score, a count or a time value is
      an integer [Z]; a field that may be [null] or [undefined] is an
      [option].
    - A [Date] is its time value in milliseconds since the epoch, or
      [None] for an Invalid Date (time value NaN); local time goes through
      the offsets of a [Zone].
    - The component's render state, the console, the alert box and the
      requests sent to the data service are one [World]; a handler is a
      computation in the monad [M], which threads the world and may throw.
    - The replies of the data service and the viewer of the auth context
      are inputs, gathered in [Env].
    - A handler runs from its call to its end with no other handler in
      between; the callbacks given to [Promise.all] send their requests in
      the order of the array and go on in the order of their replies. *)

From Stdlib Require Import String ZArith List Bool Lia Sorted Permutation.
Import ListNotations.
Local Open Scope string_scope.
Local Open Scope list_scope.
Local Open Scope Z_scope.

(** ** Dates (ECMAScript [Date], date-fns) *)

Module JSDate.

(** A Date object: [Some t] is the time value [t], [None] is Invalid Date. *)
Definition Date := option Z.

Definition msPerDay : Z := 86400000.

(** The largest magnitude of a time value (ECMAScript TimeClip). *)
Definition maxTime : Z := 8640000000000000.

Definition TimeClip (t : Z) : Date :=
  if Z.abs t >? maxTime then None else Some t.

(** [a >= b] and [a <= b] on Dates compare the time values; a comparison
    with NaN is false. *)
Definition date_ge (a b : Date) : bool :=
  match a, b with
  | Some x, Some y => y <=? x
  | _, _ => false
  end.

Definition date_le (a b : Date) : bool :=
  match a, b with
  | Some x, Some y => x <=? y
  | _, _ => false
  end.

(** A time zone, as ECMAScript sees it: LocalTZA(t, isUTC) is the offset of
    local time from UTC in milliseconds, at the instant [t] when [isUTC] is
    true, and for the local time [t] when it is false. For a local time
    that a change of offset skips or repeats, the zone says which offset
    it is read with. *)
Record Zone := mkZone { LocalTZA : Z -> bool -> Z }.

(** The zone whose offset never changes. *)
Definition fixedOffset (offset : Z) : Zone :=
  {| LocalTZA := fun _ _ => offset |}.

(** A number of milliseconds stands for the zone with that fixed offset. *)
Coercion fixedOffset : Z >-> Zone.

Section LocalZone.

Variable tz : Zone.

(** LocalTime(t) = t + LocalTZA(t, true), UTC(t) = t - LocalTZA(t, false). *)
Definition LocalTime (t : Z) : Z := t + LocalTZA tz t true.
Definition UTC (t : Z) : Z := t - LocalTZA tz t false.

(** Day(t) = floor(t / msPerDay), the day number of a local time. *)
Definition Day (t : Z) : Z := t / msPerDay.
Definition TimeWithinDay (t : Z) : Z := t mod msPerDay.

(** The local calendar day a valid time value falls on. *)
Definition localDay (t : Z) : Z := Day (LocalTime t).

(** date-fns [startOfDay]: a copy of the date with [setHours(0, 0, 0, 0)]. *)
Definition startOfDay (d : Date) : Date :=
  match d with
  | None => None
  | Some t => TimeClip (UTC (Day (LocalTime t) * msPerDay))
  end.

(** date-fns [endOfDay]: a copy of the date with
    [setHours(23, 59, 59, 999)]. *)
Definition endOfDay (d : Date) : Date :=
  match d with
  | None => None
  | Some t => TimeClip (UTC (Day (LocalTime t) * msPerDay + 86399999))
  end.

(** date-fns [addDays]: a copy of the date with
    [setDate(getDate() + amount)]; amount 0 returns the copy as it is. *)
Definition addDays (d : Date) (amount : Z) : Date :=
  match d with
  | None => None
  | Some t =>
      if amount =? 0 then Some t
      else TimeClip (UTC ((Day (LocalTime t) + amount) * msPerDay
                          + TimeWithinDay (LocalTime t)))
  end.

(** date-fns [subDays] is [addDays] of the negated amount. *)
Definition subDays (d : Date) (amount : Z) : Date := addDays d (- amount).

End LocalZone.

End JSDate.
Import JSDate.

(** ** Data model *)

(** A row of [workout_logs]: [total] may be null; [completed_at] is the
    Date that [new Date(log.completed_at)] builds from the stored
    timestamp. *)
Record WorkoutLog := mkWorkoutLog {
  total : option Z;
  completed_at : Date
}.

(** A row of [profiles] with its nested [workout_logs]. *)
Record Profile := mkProfile {
  profile_id : string;
  profile_first_name : option string;
  profile_last_name : option string;
  profile_profile_name : option string;
  workout_logs : option (list WorkoutLog)
}.

(** A row of the [likes] count query. *)
Record LikesRow := mkLikesRow { count : option Z }.

Record UserRanking := mkUserRanking {
  id : string;
  first_name : string;
  last_name : string;
  profile_name : string;
  total_workouts : Z;
  total_score : Z;
  daily_score : Z;
  likes : Z;
  hasLiked : bool
}.

(** ** The aggregation of one profile (lines 66 to 86) *)

(** [x || 0] on a nullable number. *)
Definition or0 (x : option Z) : Z :=
  match x with
  | Some v => if v =? 0 then 0 else v
  | None => 0
  end.

(** [s || ''] on a nullable string. *)
Definition orEmpty (s : option string) : string :=
  match s with
  | Some v => v
  | None => ""
  end.

(** [likesData ? likesData[0]?.count || 0 : 0] *)
Definition likesOf (likesData : option (list LikesRow)) : Z :=
  match likesData with
  | Some (row :: _) => or0 (count row)
  | Some [] => 0
  | None => 0
  end.

(** The predicate of [workout_logs.filter]: the completion date is between
    [new Date(todayStart)] and [new Date(todayEnd)], both included. The two
    ISO strings are represented by the instants they denote. *)
Definition completedOn (todayStart todayEnd : Z) (log : WorkoutLog) : bool :=
  date_ge (completed_at log) (Some todayStart)
  && date_le (completed_at log) (Some todayEnd).

(** [logs.reduce((sum, log) => sum + (log.total || 0), 0)] *)
Definition sumTotals (logs : list WorkoutLog) : Z :=
  fold_left (fun sum log => sum + or0 (total log)) logs 0.

(** [profile.workout_logs?.filter(...) || []] *)
Definition dailyWorkouts (todayStart todayEnd : Z) (profile : Profile)
  : list WorkoutLog :=
  match workout_logs profile with
  | Some logs => filter (completedOn todayStart todayEnd) logs
  | None => []
  end.

Definition userStat (todayStart todayEnd : Z) (profile : Profile)
  (likesData : option (list LikesRow)) : UserRanking :=
  let likes := likesOf likesData in
  let dailyScore := sumTotals (dailyWorkouts todayStart todayEnd profile) in
  {| id := profile_id profile;
     first_name := orEmpty (profile_first_name profile);
     last_name := orEmpty (profile_last_name profile);
     profile_name := orEmpty (profile_profile_name profile);
     total_workouts :=
       match workout_logs profile with
       | Some logs => or0 (Some (Z.of_nat (length logs)))
       | None => 0
       end;
     total_score :=
       match workout_logs profile with
       | Some logs => or0 (Some (sumTotals logs))
       | None => 0
       end;
     daily_score := dailyScore;
     likes := likes;
     hasLiked := false |}.

(** ** Filtering, sorting and truncation (lines 91 to 94) *)

(** [userStats.filter(stat => stat !== null)] *)
Fixpoint validUserStats (userStats : list (option UserRanking))
  : list UserRanking :=
  match userStats with
  | [] => []
  | Some stat :: rest => stat :: validUserStats rest
  | None :: rest => validUserStats rest
  end.

(** The comparator [(a, b) => b.daily_score - a.daily_score]. *)
Definition byDailyScore (a b : UserRanking) : Z :=
  daily_score b - daily_score a.

(** [Array.prototype.sort] with a comparator: a stable sort, here by
    insertion from the right. An element goes in front of the first element
    that it does not have to follow, so equal elements keep their order. *)
Fixpoint insertBy {A} (cmp : A -> A -> Z) (x : A) (l : list A) : list A :=
  match l with
  | [] => [x]
  | y :: rest =>
      if cmp x y <=? 0 then x :: y :: rest
      else y :: insertBy cmp x rest
  end.

Fixpoint sortBy {A} (cmp : A -> A -> Z) (l : list A) : list A :=
  match l with
  | [] => []
  | x :: rest => insertBy cmp x (sortBy cmp rest)
  end.

(** [validUserStats.sort(...).slice(0, 10)] *)
Definition sortedRankings (valid : list UserRanking) : list UserRanking :=
  firstn 10 (sortBy byDailyScore valid).

(** ** The world a handler runs in *)

(** What a handler does besides changing the render state, in the order it
    happens: lines on the console, alert boxes, and the requests sent to
    the data service. *)
Inductive Event :=
| ConsoleError (label error : string)
| Alert (message : string)
| SelectProfiles
| SelectLikes (target : string)
| InsertLike (viewer target : string) (date : Z).

Record World := mkWorld {
  rankings : list UserRanking;
  loading : bool;
  selectedDate : Date;
  trace : list Event
}.

(** The completion of a computation: a value, or a thrown error (for an
    async function, a rejected promise). *)
Inductive Completion (A : Type) :=
| Normal (value : A)
| Thrown (error : string).
Arguments Normal {A} value.
Arguments Thrown {A} error.

Definition M (A : Type) : Type := World -> Completion A * World.

Definition ret {A} (a : A) : M A := fun w => (Normal a, w).

Definition throw {A} (error : string) : M A := fun w => (Thrown error, w).

Definition bind {A B} (m : M A) (k : A -> M B) : M B :=
  fun w =>
    match m w with
    | (Normal a, w1) => k a w1
    | (Thrown error, w1) => (Thrown error, w1)
    end.

Declare Scope js_scope.
Delimit Scope js_scope with js.
Notation "x <- m ;; k" := (bind m (fun x => k))
  (at level 61, m at next level, right associativity) : js_scope.
Notation "m ;; k" := (bind m (fun _ => k))
  (at level 61, right associativity) : js_scope.
Local Open Scope js_scope.

(** [try { body } catch (error) { handler }] *)
Definition tryCatch {A} (body : M A) (handler : string -> M A) : M A :=
  fun w =>
    match body w with
    | (Normal a, w1) => (Normal a, w1)
    | (Thrown error, w1) => handler error w1
    end.

(** [try { body } finally { final }]: the final block always runs, and the
    completion of the body stands unless the final block throws. *)
Definition tryFinally {A} (body : M A) (final : M unit) : M A :=
  fun w =>
    match body w with
    | (c, w1) =>
        match final w1 with
        | (Normal _, w2) => (c, w2)
        | (Thrown error, w2) => (Thrown error, w2)
        end
    end.

Definition emit (ev : Event) : M unit :=
  fun w =>
    (Normal tt,
     {| rankings := rankings w; loading := loading w;
        selectedDate := selectedDate w; trace := trace w ++ [ev] |}).

Definition consoleError (label error : string) : M unit :=
  emit (ConsoleError label error).

Definition alert (message : string) : M unit := emit (Alert message).

(** The state setters of [useState]; [setRankings] and [setSelectedDate]
    are given an updater of the previous value. *)
Definition setRankings (update : list UserRanking -> list UserRanking)
  : M unit :=
  fun w =>
    (Normal tt,
     {| rankings := update (rankings w); loading := loading w;
        selectedDate := selectedDate w; trace := trace w |}).

Definition setLoading (b : bool) : M unit :=
  fun w =>
    (Normal tt,
     {| rankings := rankings w; loading := b;
        selectedDate := selectedDate w; trace := trace w |}).

Definition setSelectedDate (update : Date -> Date) : M unit :=
  fun w =>
    (Normal tt,
     {| rankings := rankings w; loading := loading w;
        selectedDate := update (selectedDate w); trace := trace w |}).

Definition getSelectedDate : M Date := fun w => (Normal (selectedDate w), w).

(** [Date.prototype.toISOString] throws a RangeError on an Invalid Date.
    The string of a valid date is represented by the instant it denotes,
    which is what [new Date(string)] gives back. *)
Definition toISOString (d : Date) : M Z :=
  match d with
  | Some t => ret t
  | None => throw "RangeError: Invalid time value"
  end.

(** ** The data service and the auth context *)

(** What awaiting a request gives: the object [{ data, error }], or a
    rejection. *)
Inductive Reply (A : Type) :=
| Resolved (data : option A) (error : option string)
| Rejected (reason : string).
Arguments Resolved {A} data error.
Arguments Rejected {A} reason.

Record User := mkUser { user_id : string }.

Record Env := mkEnv {
  zone : Zone;                                (* the local time zone *)
  now : Z;                                    (* the clock, [new Date()] *)
  user : option User;                         (* [useAuth().user] *)
  profilesReply : Reply (list Profile);
  likesReply : string -> Reply (list LikesRow);
  likesSettledAt : string -> Z;               (* when that reply is there *)
  insertReply : Reply unit
}.

(** [await request]: the request is sent; a rejection is thrown at the
    [await]. *)
Definition await {A} (request : Event) (reply : Reply A)
  : M (option A * option string) :=
  emit request;;
  match reply with
  | Resolved data error => ret (data, error)
  | Rejected reason => throw reason
  end.

(** What an awaited reply gives when it is there: the object
    [{ data, error }], or the rejection thrown at the [await]. *)
Definition settle {A} (reply : Reply A) : M (option A * option string) :=
  match reply with
  | Resolved data error => ret (data, error)
  | Rejected reason => throw reason
  end.

(** The call of an async function with one [await]: the request it sends
    when it is called, the time at which the awaited reply is there, and
    what the function does from there on. *)
Record Async (A : Type) := mkAsync {
  sent : Event;
  settledAt : Z;
  resume : M A
}.
Arguments mkAsync {A} sent settledAt resume.
Arguments sent {A} a.
Arguments settledAt {A} a.
Arguments resume {A} a.

(** The elements of an array with their positions. *)
Fixpoint numbered {A} (index : nat) (l : list A) : list (nat * A) :=
  match l with
  | [] => []
  | x :: rest => (index, x) :: numbered (S index) rest
  end.

(** Earlier replies first. *)
Definition bySettledAt {A} (a b : nat * Async A) : Z :=
  settledAt (snd a) - settledAt (snd b).

Fixpoint sendAll (requests : list Event) : M unit :=
  match requests with
  | [] => ret tt
  | request :: rest => emit request;; sendAll rest
  end.

(** The calls go on one after the other, as their replies come in; the
    first one that throws ends it. *)
Fixpoint resumeAll {A} (calls : list (nat * Async A)) : M (list (nat * A)) :=
  match calls with
  | [] => ret []
  | (index, call) :: rest =>
      a <- resume call;;
      values <- resumeAll rest;;
      ret ((index, a) :: values)
  end.

Fixpoint valueAt {A} (index : nat) (values : list (nat * A)) : option A :=
  match values with
  | [] => None
  | (i, a) :: rest => if Nat.eqb index i then Some a else valueAt index rest
  end.

(** The values of the positions [index], [index + 1], ... *)
Fixpoint inArrayOrder {A} (index count : nat) (values : list (nat * A))
  : list A :=
  match count with
  | O => []
  | S count' =>
      match valueAt index values with
      | Some a => a :: inArrayOrder (S index) count' values
      | None => inArrayOrder (S index) count' values
      end
  end.

(** [Promise.all] over the promises of async callbacks, as in
    [Promise.all(data.map(async ...))]. [map] calls every callback, in the
    order of the array, and each call sends its request; then the calls go
    on in the order in which their replies come in (two replies of the
    same time in the order of the array). The result has the values at the
    positions of their calls. It is rejected by the first call that throws,
    at that moment: the calls whose replies are not yet there go on after
    the function that awaits [Promise.all] has come to its end, and are not
    part of it. *)
Definition promiseAll {A} (callbacks : list (Async A)) : M (list A) :=
  sendAll (map sent callbacks);;
  values <- resumeAll (sortBy bySettledAt (numbered 0 callbacks));;
  ret (inArrayOrder 0 (length callbacks) values).

(** ** fetchRankings (lines 27 to 102) *)

(** The callback of [data.map] (lines 55 to 87). *)
Definition likesCallback (env : Env) (todayStart todayEnd : Z)
  (profile : Profile) : Async (option UserRanking) :=
  {| sent := SelectLikes (profile_id profile);
     settledAt := likesSettledAt env (profile_id profile);
     resume :=
       r <- settle (likesReply env (profile_id profile));;
       let '(likesData, likesError) := r in
       match likesError with
       | Some error =>
           consoleError "Error fetching likes:" error;;
           ret None
       | None => ret (Some (userStat todayStart todayEnd profile likesData))
       end |}.

Definition fetchRankings (env : Env) : M unit :=
  tryFinally
    (tryCatch
       (setLoading true;;
        selected <- getSelectedDate;;
        todayStart <- toISOString (startOfDay (zone env) selected);;
        todayEnd <- toISOString (endOfDay (zone env) selected);;
        r <- await SelectProfiles (profilesReply env);;
        let '(data, error) := r in
        match error with
        | Some error => consoleError "Supabase error:" error
        | None =>
            match data with
            | None =>
                throw "TypeError: Cannot read properties of null"
            | Some data =>
                userStats <-
                  promiseAll
                    (map (likesCallback env todayStart todayEnd) data);;
                setRankings
                  (fun _ => sortedRankings (validUserStats userStats))
            end
        end)
       (fun error => consoleError "Error fetching rankings:" error))
    (setLoading false).

(** ** Day navigation (lines 107 to 113) *)

Definition handlePrevDay (env : Env) : M unit :=
  setSelectedDate (fun prevDate => subDays (zone env) prevDate 1).

Definition handleNextDay (env : Env) : M unit :=
  setSelectedDate (fun prevDate => addDays (zone env) prevDate 1).

(** ** The effect (lines 26 to 105) *)

(** [useEffect(..., [selectedDate])] calls [fetchRankings] after the first
    render and after every render in which [selectedDate] is another
    object; [subDays] and [addDays] return a new Date each time. So the
    component fetches when it is mounted, and a click on "Previous" or on
    "Next" is the handler followed by a fetch cycle. *)
Definition mount (env : Env) : M unit := fetchRankings env.

Definition previousButton (env : Env) : M unit :=
  handlePrevDay env;; fetchRankings env.

Definition nextButton (env : Env) : M unit :=
  handleNextDay env;; fetchRankings env.

(** ** The like action (lines 115 to 158) *)

(** [{ ...ranking, likes: l, hasLiked: b }] *)
Definition withLikes (ranking : UserRanking) (l : Z) (b : bool)
  : UserRanking :=
  {| id := id ranking;
     first_name := first_name ranking;
     last_name := last_name ranking;
     profile_name := profile_name ranking;
     total_workouts := total_workouts ranking;
     total_score := total_score ranking;
     daily_score := daily_score ranking;
     likes := l;
     hasLiked := b |}.

(** The optimistic update (lines 123 to 129). *)
Definition applyLike (profileId : string) (prevRankings : list UserRanking)
  : list UserRanking :=
  map (fun ranking =>
         if String.eqb (id ranking) profileId
         then withLikes ranking (likes ranking + 1) true
         else ranking)
      prevRankings.

(** The update that takes it back (lines 145 to 151). *)
Definition revertLike (profileId : string) (prevRankings : list UserRanking)
  : list UserRanking :=
  map (fun ranking =>
         if String.eqb (id ranking) profileId
         then withLikes ranking (likes ranking - 1) false
         else ranking)
      prevRankings.

Definition handleLike (env : Env) (profileId : string) : M unit :=
  match user env with
  | None => alert "You must be logged in to like a score."
  | Some viewer =>
      tryCatch
        (setRankings (applyLike profileId);;
         r <- await (InsertLike (user_id viewer) profileId (now env))
                    (insertReply env);;
         let '(_, error) := r in
         match error with
         | Some error =>
             consoleError "Error liking profile:" error;;
             setRankings (revertLike profileId);;
             alert "Failed to like profile. Please try again."
         | None => ret tt
         end)
        (fun error =>
           consoleError "Error liking profile:" error;;
           alert "Failed to like profile. Please try again.")
  end.

(** The like button of a row (lines 218 to 221): it is disabled once the
    row has [hasLiked] set. *)
Definition likeButton (env : Env) (row : UserRanking) : M unit :=
  if hasLiked row then ret tt else handleLike env (id row).

(** The world a handler leaves behind. *)
Definition run {A} (m : M A) (w : World) : World := snd (m w).

(** ** What the specification says, in its own words *)

(** A date lies within the inclusive interval [[lo, hi]]. *)
Definition withinDay (lo hi : Z) (d : Date) : bool :=
  match d with
  | Some t => (lo <=? t) && (t <=? hi)
  | None => false
  end.

(** The sum of [total] over exactly the logs completed within [[lo, hi]];
    a missing [total] counts as 0. *)
Fixpoint spec_daily_score (lo hi : Z) (logs : list WorkoutLog) : Z :=
  match logs with
  | [] => 0
  | log :: rest =>
      (if withinDay lo hi (completed_at log)
       then match total log with Some v => v | None => 0 end
       else 0)
      + spec_daily_score lo hi rest
  end.

(** The sum of [total] over all the logs. *)
Fixpoint spec_total_score (logs : list WorkoutLog) : Z :=
  match logs with
  | [] => 0
  | log :: rest =>
      match total log with Some v => v | None => 0 end
      + spec_total_score rest
  end.

(** The logs of a profile, none when the collection is missing. *)
Definition logsOf (profile : Profile) : list WorkoutLog :=
  match workout_logs profile with
  | Some logs => logs
  | None => []
  end.

(** The like-count request of a profile came back with an error. *)
Definition likesFailed (env : Env) (profile : Profile) : bool :=
  match likesReply env (profile_id profile) with
  | Resolved _ (Some _) => true
  | _ => false
  end.

(** The like-count request of a profile was rejected. *)
Definition likesRejected (env : Env) (profile : Profile) : bool :=
  match likesReply env (profile_id profile) with
  | Rejected _ => true
  | _ => false
  end.

(** The data of a like-count reply. *)
Definition likesDataOf (env : Env) (profile : Profile)
  : option (list LikesRow) :=
  match likesReply env (profile_id profile) with
  | Resolved data _ => data
  | Rejected _ => None
  end.

(** Non-increasing by [daily_score]. *)
Definition scoreDescending (a b : UserRanking) : Prop :=
  daily_score b <= daily_score a.

(** ** Vocabulary for the statements *)

(** The world with more events on its trace. *)
Definition addTrace (w : World) (events : list Event) : World :=
  {| rankings := rankings w; loading := loading w;
     selectedDate := selectedDate w; trace := trace w ++ events |}.

(** A request to the data service. *)
Definition isRequest (ev : Event) : bool :=
  match ev with
  | SelectProfiles | SelectLikes _ | InsertLike _ _ _ => true
  | ConsoleError _ _ | Alert _ => false
  end.

Definition isSelectLikes (ev : Event) : bool :=
  match ev with
  | SelectLikes _ => true
  | _ => false
  end.

Definition isConsoleError (ev : Event) : bool :=
  match ev with
  | ConsoleError _ _ => true
  | _ => false
  end.

(** The bulk query of profiles and logs failed: it came back with an error,
    or it was rejected. *)
Definition bulkFailed (env : Env) : bool :=
  match profilesReply env with
  | Resolved _ (Some _) => true
  | Resolved _ None => false
  | Rejected _ => true
  end.

(** The profiles in the order in which their like-count replies come
    in. *)
Definition arrivalOrder (env : Env) (data : list Profile) : list Profile :=
  map snd
    (sortBy
       (fun a b : nat * Profile =>
          likesSettledAt env (profile_id (snd a))
          - likesSettledAt env (profile_id (snd b)))
       (numbered 0 data)).

(** The reason of the first rejected like-count request of a list. *)
Fixpoint firstRejection (env : Env) (order : list Profile) : option string :=
  match order with
  | [] => None
  | p :: rest =>
      match likesReply env (profile_id p) with
      | Rejected reason => Some reason
      | Resolved _ _ => firstRejection env rest
      end
  end.

(** What the like-count callbacks log as they go on, up to the first one
    that is rejected. *)
Fixpoint resumeEvents (env : Env) (order : list Profile) : list Event :=
  match order with
  | [] => []
  | p :: rest =>
      match likesReply env (profile_id p) with
      | Rejected _ => []
      | Resolved _ (Some error) =>
          ConsoleError "Error fetching likes:" error :: resumeEvents env rest
      | Resolved _ None => resumeEvents env rest
      end
  end.

(** What the like-count callbacks of a cycle leave on the trace: the
    requests, then what they log. *)
Definition likesEvents (env : Env) (data : list Profile) : list Event :=
  map (fun p => SelectLikes (profile_id p)) data
  ++ resumeEvents env (arrivalOrder env data).

(** What the callback of a profile resolves to when its request is not
    rejected. *)
Definition statOf (env : Env) (todayStart todayEnd : Z) (p : Profile)
  : option UserRanking :=
  if likesFailed env p then None
  else Some (userStat todayStart todayEnd p (likesDataOf env p)).

(** The profiles that a like-count error does not drop. *)
Definition keptProfiles (env : Env) (data : list Profile) : list Profile :=
  filter (fun p => negb (likesFailed env p)) data.

(** Every total that is present is 0 or more. *)
Definition nonNegativeTotals (logs : list WorkoutLog) : Prop :=
  forall log v, In log logs -> total log = Some v -> 0 <= v.

(** The profile with another collection of logs. *)
Definition withLogs (p : Profile) (logs : option (list WorkoutLog))
  : Profile :=
  {| profile_id := profile_id p;
     profile_first_name := profile_first_name p;
     profile_last_name := profile_last_name p;
     profile_profile_name := profile_profile_name p;
     workout_logs := logs |}.

(** A time value that a Date can hold. *)
Definition validTime (t : Z) : Prop := Z.abs t <= maxTime.

(** The zone has the wall-clock time [x]: the instant that the zone gives
    for it shows [x] as its local time. A wall-clock time that a change of
    offset skips is not of that kind. *)
Definition keepsWallClock (z : Zone) (x : Z) : Prop :=
  LocalTime z (UTC z x) = x.

(** ** Sample data *)

Module Sample.

(** 14 November 2023, 22:13:20 UTC; the day runs from 1699920000000 to
    1700006399999. *)
Definition today : Z := 1700000000000.

Definition alice : Profile :=
  {| profile_id := "alice";
     profile_first_name := Some "Alice";
     profile_last_name := None;
     profile_profile_name := Some "ali";
     workout_logs :=
       Some [ {| total := Some 5; completed_at := Some 1699920000000 |};
              {| total := Some 10; completed_at := Some 1700006399999 |};
              {| total := Some 3; completed_at := Some 1700006400000 |} ] |}.

(** One workout today, and a correction of -3 entered the day before. *)
Definition bob : Profile :=
  {| profile_id := "bob";
     profile_first_name := Some "Bob";
     profile_last_name := Some "B";
     profile_profile_name := None;
     workout_logs :=
       Some [ {| total := Some 5; completed_at := Some today |};
              {| total := Some (-3); completed_at := Some 1699900000000 |} ] |}.

(** No workout logs at all. *)
Definition carol : Profile :=
  {| profile_id := "carol";
     profile_first_name := None;
     profile_last_name := None;
     profile_profile_name := Some "carol";
     workout_logs := None |}.

Definition dave : Profile :=
  {| profile_id := "dave";
     profile_first_name := Some "Dave";
     profile_last_name := Some "D";
     profile_profile_name := None;
     workout_logs :=
       Some [ {| total := Some 40; completed_at := Some today |} ] |}.

Definition viewer : User := {| user_id := "viewer" |}.

(** The like-count replies come in by the length of the id: bob, dave,
    then carol and alice. *)
Definition arrivals (target : string) : Z :=
  Z.of_nat (String.length target).

(** The like-count request fails for dave, and for nobody else. *)
Definition likesReplies (target : string) : Reply (list LikesRow) :=
  if String.eqb target "dave" then Resolved None (Some "timeout")
  else Resolved (Some [ {| count := Some 2 |} ]) None.

Definition env : Env :=
  {| zone := 0;
     now := today;
     user := Some viewer;
     profilesReply := Resolved (Some [dave; carol; bob; alice]) None;
     likesReply := likesReplies;
     likesSettledAt := arrivals;
     insertReply := Resolved None None |}.

(** The same, with a data service that cannot be reached for the insert of
    a like record. *)
Definition offline : Env :=
  {| zone := 0;
     now := today;
     user := Some viewer;
     profilesReply := Resolved (Some [dave; carol; bob; alice]) None;
     likesReply := likesReplies;
     likesSettledAt := arrivals;
     insertReply := Rejected "TypeError: Failed to fetch" |}.

(** The same, with a bulk query that is refused. *)
Definition denied : Env :=
  {| zone := 0;
     now := today;
     user := None;
     profilesReply := Resolved None (Some "permission denied");
     likesReply := likesReplies;
     likesSettledAt := arrivals;
     insertReply := Resolved None None |}.

(** The same, with nobody logged in. *)
Definition anonymous : Env :=
  {| zone := 0;
     now := today;
     user := None;
     profilesReply := Resolved (Some [dave; carol; bob; alice]) None;
     likesReply := likesReplies;
     likesSettledAt := arrivals;
     insertReply := Resolved None None |}.

(** The component showing the last instant a Date can hold. *)
Definition lastDay : World :=
  {| rankings := []; loading := false; selectedDate := Some maxTime;
     trace := [] |}.

(** The component as it is mounted. *)
Definition mounted : World :=
  {| rankings := []; loading := true; selectedDate := Some today;
     trace := [] |}.

Definition row (name : string) (n : Z) (liked : bool) : UserRanking :=
  {| id := name; first_name := name; last_name := ""; profile_name := "";
     total_workouts := 1; total_score := 7; daily_score := 7;
     likes := n; hasLiked := liked |}.

(** A leaderboard on screen. *)
Definition shown : World :=
  {| rankings := [row "alice" 2 false; row "bob" 0 false];
     loading := false; selectedDate := Some today; trace := [] |}.

End Sample.

(** ** The view (lines 160 to 239) *)

(** What stands in front of a row: a trophy, a medal, or the rank. *)
Inductive RankIcon :=
| GoldTrophy
| SilverMedal
| BronzeMedal
| RankNumber (rank : Z).

(** What a row of the leaderboard shows. *)
Record RowView := mkRowView {
  rowKey : string;
  rankIcon : RankIcon;
  displayName : string;
  workoutsCompleted : Z;
  points : Z;
  likeDisabled : bool;
  heartRed : bool;
  likeCount : Z
}.

(** What the component renders: the spinner, or the board with the date
    of the results, its rows, and the line that says there are no rankings
    for that date. *)
Inductive Screen :=
| LoadingSpinner
| Board (resultsFor : Z) (rows : list RowView) (noRankings : option Z).

(** date-fns [format(date, 'PPP')] throws a RangeError on an Invalid Date.
    The text of a valid date is represented by the instant it is made
    from. *)
Definition format (d : Date) : Completion Z :=
  match d with
  | Some t => Normal t
  | None => Thrown "RangeError: Invalid time value"
  end.

(** The icon chosen by [index === 0 ? ... : index === 1 ? ... : ...]. *)
Definition iconOf (index : Z) : RankIcon :=
  if index =? 0 then GoldTrophy
  else if index =? 1 then SilverMedal
  else if index =? 2 then BronzeMedal
  else RankNumber (index + 1).

(** [user.profile_name || `${user.first_name} ${user.last_name}`] *)
Definition nameOf (user : UserRanking) : string :=
  if String.eqb (profile_name user) ""
  then String.append (first_name user)
         (String.append " " (last_name user))
  else profile_name user.

(** The element built for one ranking (lines 187 to 229). *)
Definition rowView (user : UserRanking) (index : Z) : RowView :=
  {| rowKey := id user;
     rankIcon := iconOf index;
     displayName := nameOf user;
     workoutsCompleted := total_workouts user;
     points := daily_score user;
     likeDisabled := hasLiked user;
     heartRed := hasLiked user;
     likeCount := likes user |}.

(** [array.map((element, index) => ...)], from a first index on. *)
Fixpoint mapFrom {A B} (f : A -> Z -> B) (index : Z) (l : list A) : list B :=
  match l with
  | [] => []
  | x :: rest => f x index :: mapFrom f (index + 1) rest
  end.

Definition render (w : World) : Completion Screen :=
  if loading w then Normal LoadingSpinner
  else
    match format (selectedDate w) with
    | Thrown error => Thrown error
    | Normal label =>
        Normal
          (Board label
             (mapFrom rowView 0 (rankings w))
             (if Z.of_nat (length (rankings w)) =? 0
              then Some label else None))
    end.

(** ** More vocabulary for the statements *)

(** What a fetch cycle may leave on the trace: read queries and lines on
    the console. *)
Definition isReadOrLog (ev : Event) : bool :=
  match ev with
  | SelectProfiles | SelectLikes _ | ConsoleError _ _ => true
  | InsertLike _ _ _ | Alert _ => false
  end.

(** What a row says about a profile apart from the likes. *)
Definition scoreLine (r : UserRanking)
  : string * (string * string * string) * (Z * Z * Z) :=
  (id r,
   (first_name r, last_name r, profile_name r),
   (total_workouts r, total_score r, daily_score r)).

(** The position that goes with a rank icon. *)
Definition iconAt (i : nat) : RankIcon :=
  match i with
  | O => GoldTrophy
  | S O => SilverMedal
  | S (S O) => BronzeMedal
  | _ => RankNumber (Z.of_nat i + 1)
  end.

(** The aggregated rows of the profiles that are kept. *)
Definition keptStats (env : Env) (s e : Z) (data : list Profile)
  : list UserRanking :=
  map (fun p => userStat s e p (likesDataOf env p)) (keptProfiles env data).

(** More sample data. *)
Module Cases.

(** A profile that has not trained on the sample day. *)
Definition erin : Profile :=
  {| profile_id := "erin";
     profile_first_name := None;
     profile_last_name := None;
     profile_profile_name := None;
     workout_logs :=
       Some [ {| total := Some 5; completed_at := Some 1600000000000 |} ] |}.

(** A second profile with the score of bob on the sample day. *)
Definition bert : Profile :=
  {| profile_id := "bert";
     profile_first_name := Some "Bert";
     profile_last_name := None;
     profile_profile_name := None;
     workout_logs :=
       Some [ {| total := Some 5; completed_at := Some Sample.today |} ] |}.

(** New York around the change to daylight saving time of 10 March 2024:
    five hours behind UTC until 07:00 UTC of that day, four hours behind
    from then on. The local times from 02:00 to 03:00 of that day are
    skipped, and read with the offset of before. *)
Definition newYork : Zone :=
  {| LocalTZA := fun t isUTC =>
       if isUTC
       then if t <? 1710054000000 then -18000000 else -14400000
       else if t <? 1710039600000 then -18000000 else -14400000 |}.

(** Frank trained on 9 March at 11:00 and on 10 March at 00:53, New York
    time. *)
Definition frank : Profile :=
  {| profile_id := "frank";
     profile_first_name := Some "Frank";
     profile_last_name := None;
     profile_profile_name := None;
     workout_logs :=
       Some [ {| total := Some 8; completed_at := Some 1710000000000 |};
              {| total := Some 4; completed_at := Some 1710050000000 |} ] |}.

Definition newYorkEnv : Env :=
  {| zone := newYork;
     now := 1710100000000;
     user := Some Sample.viewer;
     profilesReply := Resolved (Some [frank; Sample.alice]) None;
     likesReply := Sample.likesReplies;
     likesSettledAt := Sample.arrivals;
     insertReply := Resolved None None |}.

(** 9 March 2024, 11:00 in New York. *)
Definition march9 : World :=
  {| rankings := []; loading := false; selectedDate := Some 1710000000000;
     trace := [] |}.

(** 10 March 2024, 11:00 in New York, 23 hours later. *)
Definition march10 : World :=
  {| rankings := []; loading := false; selectedDate := Some 1710082800000;
     trace := [] |}.

(** A profile with one workout on the sample day. *)
Definition athlete (name : string) (score : Z) : Profile :=
  {| profile_id := name;
     profile_first_name := Some name;
     profile_last_name := None;
     profile_profile_name := None;
     workout_logs :=
       Some [ {| total := Some score; completed_at := Some Sample.today |} ] |}.

(** Twelve profiles, two more than the board shows. *)
Definition crowdProfiles : list Profile :=
  [ athlete "ann" 3; athlete "ben" 12; athlete "cat" 7; athlete "dan" 1;
    athlete "eve" 9; athlete "fay" 12; athlete "gus" 5; athlete "hal" 2;
    athlete "ida" 8; athlete "jon" 4; athlete "kim" 11; athlete "lea" 6 ].

Definition crowd : Env :=
  {| zone := 0;
     now := Sample.today;
     user := Some Sample.viewer;
     profilesReply := Resolved (Some crowdProfiles) None;
     likesReply := Sample.likesReplies;
     likesSettledAt := Sample.arrivals;
     insertReply := Resolved None None |}.

(** The like-count request of bob is rejected. *)
Definition flakyLikes (target : string) : Reply (list LikesRow) :=
  if String.eqb target "bob" then Rejected "socket hang up"
  else Resolved (Some [ {| count := Some 1 |} ]) None.

Definition flaky : Env :=
  {| zone := 0;
     now := Sample.today;
     user := Some Sample.viewer;
     profilesReply :=
       Resolved (Some [Sample.carol; Sample.bob; Sample.alice]) None;
     likesReply := flakyLikes;
     likesSettledAt := Sample.arrivals;
     insertReply := Resolved None None |}.

(** The bulk query gives neither data nor an error. *)
Definition noData : Env :=
  {| zone := 0;
     now := Sample.today;
     user := Some Sample.viewer;
     profilesReply := Resolved None None;
     likesReply := Sample.likesReplies;
     likesSettledAt := Sample.arrivals;
     insertReply := Resolved None None |}.

(** Nobody has trained on the sample day. *)
Definition restDay : Env :=
  {| zone := 0;
     now := Sample.today;
     user := Some Sample.viewer;
     profilesReply := Resolved (Some [erin; Sample.carol]) None;
     likesReply := Sample.likesReplies;
     likesSettledAt := Sample.arrivals;
     insertReply := Resolved None None |}.

(** Two profiles with the same score. *)
Definition tied : Env :=
  {| zone := 0;
     now := Sample.today;
     user := Some Sample.viewer;
     profilesReply := Resolved (Some [Sample.bob; bert; Sample.alice]) None;
     likesReply := Sample.likesReplies;
     likesSettledAt := Sample.arrivals;
     insertReply := Resolved None None |}.

(** The insert of a like record comes back with an error. *)
Definition refused : Env :=
  {| zone := 0;
     now := Sample.today;
     user := Some Sample.viewer;
     profilesReply := Resolved (Some [Sample.bob; Sample.alice]) None;
     likesReply := Sample.likesReplies;
     likesSettledAt := Sample.arrivals;
     insertReply := Resolved None (Some "duplicate key") |}.

(** A board on which the viewer has liked bob. *)
Definition liked : World :=
  {| rankings := [Sample.row "alice" 2 false; Sample.row "bob" 1 true];
     loading := false; selectedDate := Some Sample.today; trace := [] |}.

End Cases.

(** * Properties *)

(** ** Arithmetic of scores *)

Lemma or0_Some (v : Z) : or0 (Some v) = v.
Proof.
  unfold or0. destruct (Z.eqb_spec v 0); congruence.
Qed.

Lemma or0_total (log : WorkoutLog) :
  or0 (total log) = match total log with Some v => v | None => 0 end.
Proof.
  destruct (total log) as [v|]; [apply or0_Some | reflexivity].
Qed.

Lemma fold_sum_shift (logs : list WorkoutLog) (acc : Z) :
  fold_left (fun sum log => sum + or0 (total log)) logs acc
  = acc + sumTotals logs.
Proof.
  unfold sumTotals. revert acc.
  induction logs as [|log rest IH]; intro acc; simpl.
  - lia.
  - rewrite IH, (IH (or0 (total log))). lia.
Qed.

Lemma sumTotals_cons (log : WorkoutLog) (rest : list WorkoutLog) :
  sumTotals (log :: rest) = or0 (total log) + sumTotals rest.
Proof.
  unfold sumTotals at 1. simpl. apply fold_sum_shift.
Qed.

Lemma sumTotals_app (l1 l2 : list WorkoutLog) :
  sumTotals (l1 ++ l2) = sumTotals l1 + sumTotals l2.
Proof.
  induction l1 as [|log rest IH]; simpl.
  - reflexivity.
  - rewrite !sumTotals_cons, IH. lia.
Qed.

Lemma sumTotals_spec (logs : list WorkoutLog) :
  sumTotals logs = spec_total_score logs.
Proof.
  induction logs as [|log rest IH]; [reflexivity|].
  rewrite sumTotals_cons, or0_total, IH. reflexivity.
Qed.

Lemma completedOn_withinDay (lo hi : Z) (log : WorkoutLog) :
  completedOn lo hi log = withinDay lo hi (completed_at log).
Proof.
  unfold completedOn, withinDay, date_ge, date_le.
  destruct (completed_at log); reflexivity.
Qed.

Lemma sumTotals_filter_spec (lo hi : Z) (logs : list WorkoutLog) :
  sumTotals (filter (completedOn lo hi) logs) = spec_daily_score lo hi logs.
Proof.
  induction logs as [|log rest IH]; [reflexivity|].
  simpl. rewrite <- completedOn_withinDay.
  destruct (completedOn lo hi log).
  - rewrite sumTotals_cons, or0_total, IH. reflexivity.
  - rewrite IH. reflexivity.
Qed.

Lemma daily_score_userStat (lo hi : Z) (p : Profile)
  (ld : option (list LikesRow)) :
  daily_score (userStat lo hi p ld) = spec_daily_score lo hi (logsOf p).
Proof.
  unfold userStat, dailyWorkouts, logsOf. cbn [daily_score].
  destruct (workout_logs p) as [logs|].
  - apply sumTotals_filter_spec.
  - reflexivity.
Qed.

Lemma total_score_userStat (lo hi : Z) (p : Profile)
  (ld : option (list LikesRow)) :
  total_score (userStat lo hi p ld) = spec_total_score (logsOf p).
Proof.
  unfold userStat, logsOf. cbn [total_score].
  destruct (workout_logs p) as [logs|].
  - rewrite or0_Some. apply sumTotals_spec.
  - reflexivity.
Qed.

Lemma total_workouts_userStat (lo hi : Z) (p : Profile)
  (ld : option (list LikesRow)) :
  total_workouts (userStat lo hi p ld) = Z.of_nat (length (logsOf p)).
Proof.
  unfold userStat, logsOf. cbn [total_workouts].
  destruct (workout_logs p) as [logs|].
  - apply or0_Some.
  - reflexivity.
Qed.

(** ** The stable sort *)

Section Sorting.

Context {A : Type} (cmp : A -> A -> Z).

Lemma insertBy_perm (x : A) (l : list A) :
  Permutation (x :: l) (insertBy cmp x l).
Proof.
  induction l as [|y rest IH]; simpl.
  - apply Permutation_refl.
  - destruct (cmp x y <=? 0).
    + apply Permutation_refl.
    + eapply perm_trans; [apply perm_swap|].
      apply perm_skip, IH.
Qed.

Lemma sortBy_perm (l : list A) : Permutation l (sortBy cmp l).
Proof.
  induction l as [|x rest IH]; simpl.
  - apply perm_nil.
  - eapply perm_trans; [apply perm_skip, IH|].
    apply insertBy_perm.
Qed.

Lemma sortBy_length (l : list A) : length (sortBy cmp l) = length l.
Proof.
  symmetry. apply Permutation_length, sortBy_perm.
Qed.

Lemma sortBy_In (x : A) (l : list A) : In x (sortBy cmp l) <-> In x l.
Proof.
  split; intro H.
  - eapply Permutation_in; [apply Permutation_sym, sortBy_perm | exact H].
  - eapply Permutation_in; [apply sortBy_perm | exact H].
Qed.

End Sorting.

Lemma insertBy_descending (x : UserRanking) (l : list UserRanking) :
  StronglySorted scoreDescending l ->
  StronglySorted scoreDescending (insertBy byDailyScore x l).
Proof.
  induction 1 as [|y rest Hrest IH Hy]; simpl.
  - constructor; constructor.
  - destruct (Z.leb_spec (byDailyScore x y) 0) as [Hle|Hgt].
    + constructor.
      * constructor; assumption.
      * constructor.
        -- unfold scoreDescending, byDailyScore in *. lia.
        -- eapply Forall_impl; [|exact Hy].
           unfold scoreDescending, byDailyScore in *. intros z Hz. lia.
    + constructor; [exact IH|].
      eapply Permutation_Forall; [apply insertBy_perm|].
      constructor; [|exact Hy].
      unfold scoreDescending, byDailyScore in *. lia.
Qed.

Lemma sortBy_descending (l : list UserRanking) :
  StronglySorted scoreDescending (sortBy byDailyScore l).
Proof.
  induction l as [|x rest IH]; simpl.
  - constructor.
  - apply insertBy_descending, IH.
Qed.

(** The sort is stable: the rows of one score keep the order they had. *)
Lemma insertBy_same_score (v : Z) (x : UserRanking) (l : list UserRanking) :
  filter (fun r => daily_score r =? v) (insertBy byDailyScore x l)
  = filter (fun r => daily_score r =? v) (x :: l).
Proof.
  induction l as [|y rest IH]; [reflexivity|].
  cbn [insertBy].
  destruct (Z.leb_spec (byDailyScore x y) 0) as [Hle|Hgt]; [reflexivity|].
  cbn [filter] in *. rewrite IH.
  unfold byDailyScore in Hgt.
  destruct (Z.eqb_spec (daily_score x) v) as [Hx|Hx];
    destruct (Z.eqb_spec (daily_score y) v) as [Hy|Hy];
    try reflexivity.
  lia.
Qed.

Lemma sortBy_stable (v : Z) (l : list UserRanking) :
  filter (fun r => daily_score r =? v) (sortBy byDailyScore l)
  = filter (fun r => daily_score r =? v) l.
Proof.
  induction l as [|x rest IH]; [reflexivity|].
  cbn [sortBy]. rewrite insertBy_same_score.
  cbn [filter]. rewrite IH. reflexivity.
Qed.

Lemma In_firstn_In {A} (x : A) (n : nat) (l : list A) :
  In x (firstn n l) -> In x l.
Proof.
  revert n. induction l as [|y rest IH]; intros [|n]; simpl; try tauto.
  intros [H|H]; [left; exact H | right; eapply IH; exact H].
Qed.

Lemma firstn_StronglySorted {A} (R : A -> A -> Prop) (n : nat) (l : list A) :
  StronglySorted R l -> StronglySorted R (firstn n l).
Proof.
  intro H. revert n.
  induction H as [|x rest Hrest IH Hx]; intro n.
  - rewrite firstn_nil. constructor.
  - destruct n as [|n]; simpl.
    + constructor.
    + constructor; [apply IH|].
      rewrite Forall_forall in *. intros y Hy.
      apply Hx. eapply In_firstn_In. exact Hy.
Qed.

Lemma sortedRankings_length (valid : list UserRanking) :
  length (sortedRankings valid) = Nat.min 10 (length valid).
Proof.
  unfold sortedRankings. rewrite length_firstn, sortBy_length. reflexivity.
Qed.

Lemma sortedRankings_descending (valid : list UserRanking) :
  StronglySorted scoreDescending (sortedRankings valid).
Proof.
  apply firstn_StronglySorted, sortBy_descending.
Qed.

Lemma sortedRankings_In (r : UserRanking) (valid : list UserRanking) :
  In r (sortedRankings valid) -> In r valid.
Proof.
  unfold sortedRankings. intro H.
  apply (sortBy_In byDailyScore). eapply In_firstn_In. exact H.
Qed.

(** ** The fetch cycle *)

(** Runs the steps of a handler whose branches are known. *)
Ltac js_eval :=
  cbv beta iota zeta
    delta [ret throw toISOString fst snd
           rankings loading selectedDate trace].

Lemma addTrace_addTrace (w : World) (e1 e2 : list Event) :
  addTrace (addTrace w e1) e2 = addTrace w (e1 ++ e2).
Proof.
  unfold addTrace. simpl. rewrite app_assoc. reflexivity.
Qed.

Lemma addTrace_nil (w : World) : addTrace w [] = w.
Proof.
  destruct w. unfold addTrace. simpl. rewrite app_nil_r. reflexivity.
Qed.

(** *** Positions and order of arrival *)

Lemma numbered_map {A B} (f : A -> B) (k : nat) (l : list A) :
  numbered k (map f l)
  = map (fun ix => (fst ix, f (snd ix))) (numbered k l).
Proof.
  revert k. induction l as [|x rest IH]; intro k; [reflexivity|].
  cbn [map numbered fst snd]. rewrite IH. reflexivity.
Qed.

Lemma numbered_snd {A} (k : nat) (l : list A) :
  map snd (numbered k l) = l.
Proof.
  revert k. induction l as [|x rest IH]; intro k; [reflexivity|].
  cbn [map numbered snd]. rewrite IH. reflexivity.
Qed.

Lemma numbered_fst {A} (k : nat) (l : list A) :
  map fst (numbered k l) = seq k (length l).
Proof.
  revert k. induction l as [|x rest IH]; intro k; [reflexivity|].
  cbn [map numbered fst length seq]. rewrite IH. reflexivity.
Qed.

Lemma numbered_In {A} (k i : nat) (l : list A) (x : A) :
  nth_error l i = Some x -> In ((k + i)%nat, x) (numbered k l).
Proof.
  revert k i. induction l as [|y rest IH]; intros k [|i] H;
    try discriminate.
  - inversion H. left. f_equal. lia.
  - right. replace (k + S i)%nat with (S k + i)%nat by lia.
    apply IH. exact H.
Qed.

Lemma insertBy_map {A B} (g : A -> B) (cmp : B -> B -> Z) (x : A)
  (l : list A) :
  insertBy cmp (g x) (map g l)
  = map g (insertBy (fun a b => cmp (g a) (g b)) x l).
Proof.
  induction l as [|y rest IH]; [reflexivity|].
  cbn [map insertBy]. destruct (cmp (g x) (g y) <=? 0); [reflexivity|].
  cbn [map]. rewrite IH. reflexivity.
Qed.

Lemma sortBy_map {A B} (g : A -> B) (cmp : B -> B -> Z) (l : list A) :
  sortBy cmp (map g l) = map g (sortBy (fun a b => cmp (g a) (g b)) l).
Proof.
  induction l as [|x rest IH]; [reflexivity|].
  cbn [map sortBy]. rewrite IH. apply insertBy_map.
Qed.

Lemma arrivalOrder_perm (env : Env) (data : list Profile) :
  Permutation data (arrivalOrder env data).
Proof.
  unfold arrivalOrder.
  rewrite <- (numbered_snd 0 data) at 1.
  apply Permutation_map, sortBy_perm.
Qed.

Lemma valueAt_In {A} (i : nat) (a : A) (values : list (nat * A)) :
  NoDup (map fst values) -> In (i, a) values -> valueAt i values = Some a.
Proof.
  induction values as [|[j b] rest IH]; intros Hnd Hin; [contradiction|].
  cbn [map fst] in Hnd. inversion Hnd as [|j' l' Hnotin Hnd']. subst j' l'.
  cbn [valueAt]. destruct Hin as [Heq|Hin].
  - inversion Heq. subst j b. rewrite Nat.eqb_refl. reflexivity.
  - destruct (Nat.eqb_spec i j) as [->|_]; [|apply IH; assumption].
    exfalso. apply Hnotin.
    apply (in_map fst) in Hin. exact Hin.
Qed.

Lemma inArrayOrder_all {A B} (v : A -> B) (k : nat) (l : list A)
  (values : list (nat * B)) :
  (forall i x, nth_error l i = Some x ->
               valueAt (k + i) values = Some (v x)) ->
  inArrayOrder k (length l) values = map v l.
Proof.
  revert k. induction l as [|x rest IH]; intros k H; [reflexivity|].
  cbn [length inArrayOrder map].
  specialize (H 0%nat x eq_refl) as H0.
  replace (k + 0)%nat with k in H0 by lia. rewrite H0. f_equal.
  apply IH. intros i y Hi.
  replace (S k + i)%nat with (k + S i)%nat by lia.
  apply H. exact Hi.
Qed.

(** The values of calls that went on in any order are back at their
    positions. *)
Lemma inArrayOrder_permuted {A B} (v : A -> B) (l : list A)
  (order : list (nat * A)) :
  Permutation (numbered 0 l) order ->
  inArrayOrder 0 (length l) (map (fun ix => (fst ix, v (snd ix))) order)
  = map v l.
Proof.
  intro Hperm. apply inArrayOrder_all. intros i x Hi.
  apply valueAt_In.
  - rewrite map_map. cbn [fst].
    apply (Permutation_NoDup (l := map fst (numbered 0 l))).
    + apply Permutation_map. exact Hperm.
    + rewrite numbered_fst. apply seq_NoDup.
  - apply (in_map (fun ix => (fst ix, v (snd ix))) order (0 + i, x)%nat).
    eapply Permutation_in; [exact Hperm|].
    apply numbered_In. exact Hi.
Qed.

(** *** The like-count callbacks *)

Lemma sendAll_run (requests : list Event) (w : World) :
  sendAll requests w = (Normal tt, addTrace w requests).
Proof.
  revert w. induction requests as [|request rest IH]; intro w.
  - cbn. rewrite addTrace_nil. reflexivity.
  - cbn [sendAll]. unfold bind, emit. rewrite IH.
    unfold addTrace. cbn [rankings loading selectedDate trace].
    rewrite <- app_assoc. reflexivity.
Qed.

Lemma resume_likesCallback (env : Env) (s e : Z) (p : Profile) (w : World) :
  resume (likesCallback env s e p) w
  = match likesReply env (profile_id p) with
    | Rejected reason => (Thrown reason, w)
    | Resolved _ (Some error) =>
        (Normal (statOf env s e p),
         addTrace w [ConsoleError "Error fetching likes:" error])
    | Resolved _ None => (Normal (statOf env s e p), w)
    end.
Proof.
  unfold likesCallback, statOf, likesFailed, likesDataOf, settle,
    consoleError, emit, bind, addTrace.
  cbn [resume].
  destruct (likesReply env (profile_id p)) as [d [er|]|reason];
    reflexivity.
Qed.

Lemma resumeAll_likes (env : Env) (s e : Z) (order : list (nat * Profile))
  (w : World) :
  resumeAll
    (map (fun ix => (fst ix, likesCallback env s e (snd ix))) order) w
  = (match firstRejection env (map snd order) with
     | Some reason => Thrown reason
     | None =>
         Normal (map (fun ix => (fst ix, statOf env s e (snd ix))) order)
     end,
     addTrace w (resumeEvents env (map snd order))).
Proof.
  revert w. induction order as [|[i p] rest IH]; intro w.
  - cbn. rewrite addTrace_nil. reflexivity.
  - cbn [map fst snd resumeAll firstRejection resumeEvents].
    unfold bind at 1. rewrite resume_likesCallback.
    destruct (likesReply env (profile_id p)) as [d [er|]|reason].
    + unfold bind. rewrite IH.
      rewrite addTrace_addTrace. cbn [app].
      destruct (firstRejection env (map snd rest)); reflexivity.
    + unfold bind. rewrite IH.
      destruct (firstRejection env (map snd rest)); reflexivity.
    + rewrite addTrace_nil. reflexivity.
Qed.

(** What [Promise.all] over the like-count callbacks comes to. *)
Lemma promiseAll_likes_run (env : Env) (s e : Z) (data : list Profile)
  (w : World) :
  promiseAll (map (likesCallback env s e) data) w
  = (match firstRejection env (arrivalOrder env data) with
     | Some reason => Thrown reason
     | None => Normal (map (statOf env s e) data)
     end,
     addTrace w (likesEvents env data)).
Proof.
  unfold promiseAll, bind. rewrite sendAll_run.
  rewrite numbered_map.
  rewrite (sortBy_map (fun ix => (fst ix, likesCallback env s e (snd ix)))).
  unfold bySettledAt. cbn [snd likesCallback settledAt].
  rewrite resumeAll_likes. fold (arrivalOrder env data).
  rewrite addTrace_addTrace, map_map. cbn [likesCallback sent].
  fold (likesEvents env data).
  destruct (firstRejection env (arrivalOrder env data)); [reflexivity|].
  unfold ret. f_equal. f_equal.
  rewrite length_map. apply inArrayOrder_permuted. apply sortBy_perm.
Qed.

Lemma firstRejection_None_iff (env : Env) (order : list Profile) :
  firstRejection env order = None
  <-> forallb (fun p => negb (likesRejected env p)) order = true.
Proof.
  induction order as [|p rest IH]; [split; reflexivity|].
  cbn [firstRejection forallb]. unfold likesRejected at 1.
  destruct (likesReply env (profile_id p)) as [d er|reason]; cbn.
  - exact IH.
  - split; discriminate.
Qed.

Lemma firstRejection_In (env : Env) (order : list Profile)
  (reason : string) :
  firstRejection env order = Some reason ->
  exists p, In p order /\ likesReply env (profile_id p) = Rejected reason.
Proof.
  induction order as [|p rest IH]; [discriminate|].
  cbn [firstRejection].
  destruct (likesReply env (profile_id p)) as [d er|r] eqn:Hp; intro H.
  - destruct (IH H) as [q [Hq Hr]]. exists q. split; [right|]; assumption.
  - inversion H. subst r. exists p. split; [left; reflexivity | exact Hp].
Qed.

Lemma forallb_perm {A} (f : A -> bool) (l1 l2 : list A) :
  Permutation l1 l2 -> forallb f l1 = true -> forallb f l2 = true.
Proof.
  intros Hperm H. rewrite forallb_forall in *. intros x Hx.
  apply H. eapply Permutation_in; [apply Permutation_sym|]; eassumption.
Qed.

(** No rejection in the order of arrival means none in the array, and the
    other way round. *)
Lemma firstRejection_None (env : Env) (data : list Profile) :
  firstRejection env (arrivalOrder env data) = None
  <-> forallb (fun p => negb (likesRejected env p)) data = true.
Proof.
  rewrite firstRejection_None_iff. split; apply forallb_perm.
  - apply Permutation_sym, arrivalOrder_perm.
  - apply arrivalOrder_perm.
Qed.

Lemma firstRejection_Some (env : Env) (data : list Profile)
  (reason : string) :
  firstRejection env (arrivalOrder env data) = Some reason ->
  exists p, In p data /\ likesReply env (profile_id p) = Rejected reason.
Proof.
  intro H. destruct (firstRejection_In _ _ _ H) as [p [Hp Hr]].
  exists p. split; [|exact Hr].
  eapply Permutation_in; [apply Permutation_sym, arrivalOrder_perm|].
  exact Hp.
Qed.

Lemma resumeEvents_In (env : Env) (order : list Profile) (p : Profile)
  (data0 : option (list LikesRow)) (error : string) :
  firstRejection env order = None ->
  In p order ->
  likesReply env (profile_id p) = Resolved data0 (Some error) ->
  In (ConsoleError "Error fetching likes:" error) (resumeEvents env order).
Proof.
  induction order as [|q rest IH]; intros Hnone Hin Hreply;
    [contradiction|].
  cbn [firstRejection resumeEvents] in *.
  destruct Hin as [->|Hin].
  - rewrite Hreply. left. reflexivity.
  - destruct (likesReply env (profile_id q)) as [d [er|]|reason];
      [right | | discriminate]; apply IH; assumption.
Qed.

Lemma promiseAll_likes (env : Env) (s e : Z) (data : list Profile)
  (w : World) :
  forallb (fun p => negb (likesRejected env p)) data = true ->
  promiseAll (map (likesCallback env s e) data) w
  = (Normal (map (statOf env s e) data), addTrace w (likesEvents env data)).
Proof.
  intro H. rewrite promiseAll_likes_run.
  rewrite (proj2 (firstRejection_None env data) H). reflexivity.
Qed.

Lemma validUserStats_statOf (env : Env) (s e : Z) (data : list Profile) :
  validUserStats (map (statOf env s e) data)
  = map (fun p => userStat s e p (likesDataOf env p)) (keptProfiles env data).
Proof.
  unfold keptProfiles.
  induction data as [|p rest IH]; [reflexivity|].
  simpl. unfold statOf at 1.
  destruct (likesFailed env p); simpl; rewrite IH; reflexivity.
Qed.

(** The cycle whose bulk query returns data: all the like-count requests
    are sent; the rankings are set unless one of them is rejected. *)
Lemma fetchRankings_fetched (env : Env) (w : World) (s e : Z)
  (data : list Profile) :
  startOfDay (zone env) (selectedDate w) = Some s ->
  endOfDay (zone env) (selectedDate w) = Some e ->
  profilesReply env = Resolved (Some data) None ->
  fetchRankings env w
  = (Normal tt,
     {| rankings :=
          match firstRejection env (arrivalOrder env data) with
          | Some _ => rankings w
          | None => sortedRankings (keptStats env s e data)
          end;
        loading := false;
        selectedDate := selectedDate w;
        trace :=
          trace w
          ++ SelectProfiles
             :: likesEvents env data
             ++ match firstRejection env (arrivalOrder env data) with
                | Some reason =>
                    [ConsoleError "Error fetching rankings:" reason]
                | None => []
                end |}).
Proof.
  intros Hs He Hdata.
  unfold fetchRankings, tryFinally, tryCatch, getSelectedDate,
    setLoading, await, consoleError, emit, bind.
  cbn [selectedDate rankings loading trace].
  rewrite Hs, He, Hdata. cbn [toISOString ret].
  rewrite promiseAll_likes_run.
  unfold keptStats. rewrite <- validUserStats_statOf.
  destruct (firstRejection env (arrivalOrder env data)) as [reason|];
    unfold setRankings, addTrace;
    cbn [selectedDate rankings loading trace];
    rewrite <- ?app_assoc; cbn [app]; rewrite ?app_nil_r; reflexivity.
Qed.

(** The cycle that goes through: the bounds of the day are valid dates, the
    bulk query returns data and no error, and no like-count request is
    rejected. *)
Lemma fetchRankings_ok (env : Env) (w : World) (s e : Z)
  (data : list Profile) :
  startOfDay (zone env) (selectedDate w) = Some s ->
  endOfDay (zone env) (selectedDate w) = Some e ->
  profilesReply env = Resolved (Some data) None ->
  forallb (fun p => negb (likesRejected env p)) data = true ->
  fetchRankings env w
  = (Normal tt,
     {| rankings :=
          sortedRankings
            (map (fun p => userStat s e p (likesDataOf env p))
                 (keptProfiles env data));
        loading := false;
        selectedDate := selectedDate w;
        trace := trace w ++ SelectProfiles :: likesEvents env data |}).
Proof.
  intros Hs He Hdata Hlikes.
  rewrite (fetchRankings_fetched _ _ _ _ _ Hs He Hdata).
  rewrite (proj2 (firstRejection_None env data) Hlikes).
  rewrite app_nil_r. reflexivity.
Qed.

(** ** Scores of the selected day *)

Lemma fetched_row_origin (env : Env) (w : World) (s e : Z)
  (data : list Profile) (r : UserRanking) :
  startOfDay (zone env) (selectedDate w) = Some s ->
  endOfDay (zone env) (selectedDate w) = Some e ->
  profilesReply env = Resolved (Some data) None ->
  forallb (fun p => negb (likesRejected env p)) data = true ->
  In r (rankings (run (fetchRankings env) w)) ->
  exists p, In p data /\ likesFailed env p = false
            /\ r = userStat s e p (likesDataOf env p).
Proof.
  intros Hs He Hdata Hlikes Hr.
  unfold run in Hr.
  rewrite (fetchRankings_ok _ _ _ _ _ Hs He Hdata Hlikes) in Hr.
  cbn [snd rankings] in Hr.
  apply sortedRankings_In, in_map_iff in Hr.
  destruct Hr as [p [Hp Hin]].
  unfold keptProfiles in Hin. apply filter_In in Hin.
  destruct Hin as [Hin Hkept]. apply negb_true_iff in Hkept.
  exists p. auto.
Qed.

(** C1. After a fetch cycle that goes through, every row of the rankings
    comes from a profile of the fetch result, and its [daily_score] is the
    sum of [total] over exactly the logs of that profile completed within
    the inclusive interval from [startOfDay(selectedDate)] to
    [endOfDay(selectedDate)]; the same sum is computed for every profile,
    whatever its place. In particular, with totals 5 and 10 on the selected
    day and 3 on another day, [daily_score] is 15, [total_score] is 18 and
    [total_workouts] is 3. *)
Theorem daily_score_sums_selected_day :
  (forall (env : Env) (w : World) (s e : Z) (data : list Profile),
      startOfDay (zone env) (selectedDate w) = Some s ->
      endOfDay (zone env) (selectedDate w) = Some e ->
      profilesReply env = Resolved (Some data) None ->
      forallb (fun p => negb (likesRejected env p)) data = true ->
      forall r, In r (rankings (run (fetchRankings env) w)) ->
        exists p, In p data /\ id r = profile_id p
                  /\ daily_score r = spec_daily_score s e (logsOf p))
  /\ (forall (s e : Z) (p : Profile) (ld : option (list LikesRow)),
         daily_score (userStat s e p ld) = spec_daily_score s e (logsOf p))
  /\ (forall (s e t1 t2 t3 : Z) (p : Profile) (ld : option (list LikesRow)),
         s <= t1 <= e -> s <= t2 <= e -> t3 < s \/ e < t3 ->
         workout_logs p
         = Some [ {| total := Some 5; completed_at := Some t1 |};
                  {| total := Some 10; completed_at := Some t2 |};
                  {| total := Some 3; completed_at := Some t3 |} ] ->
         daily_score (userStat s e p ld) = 15
         /\ total_score (userStat s e p ld) = 18
         /\ total_workouts (userStat s e p ld) = 3).
Proof.
  split; [|split].
  - intros env w s e data Hs He Hdata Hlikes r Hr.
    destruct (fetched_row_origin _ _ _ _ _ _ Hs He Hdata Hlikes Hr)
      as [p [Hin [_ ->]]].
    exists p. split; [exact Hin|]. split; [reflexivity|].
    apply daily_score_userStat.
  - apply daily_score_userStat.
  - intros s e t1 t2 t3 p ld H1 H2 H3 Hlogs.
    rewrite daily_score_userStat, total_score_userStat,
      total_workouts_userStat.
    unfold logsOf. rewrite Hlogs. cbn [spec_daily_score spec_total_score
      length total completed_at withinDay].
    replace ((s <=? t1) && (t1 <=? e)) with true
      by (symmetry; apply andb_true_intro; split; apply Z.leb_le; lia).
    replace ((s <=? t2) && (t2 <=? e)) with true
      by (symmetry; apply andb_true_intro; split; apply Z.leb_le; lia).
    replace ((s <=? t3) && (t3 <=? e)) with false.
    + repeat split; reflexivity.
    + symmetry. apply andb_false_iff.
      destruct H3; [left; apply Z.leb_gt | right; apply Z.leb_gt]; lia.
Qed.

Lemma daily_score_sums_selected_day_witness :
  (forall r,
      In r (rankings (run (fetchRankings Sample.env) Sample.mounted)) ->
      exists p, In p [Sample.dave; Sample.carol; Sample.bob; Sample.alice]
                /\ id r = profile_id p
                /\ daily_score r
                   = spec_daily_score 1699920000000 1700006399999 (logsOf p))
  /\ daily_score (userStat 1699920000000 1700006399999 Sample.alice None) = 15
  /\ total_score (userStat 1699920000000 1700006399999 Sample.alice None) = 18
  /\ total_workouts (userStat 1699920000000 1700006399999 Sample.alice None)
     = 3.
Proof.
  destruct daily_score_sums_selected_day as [Hcycle [_ Hexample]].
  split.
  - apply (Hcycle Sample.env Sample.mounted); reflexivity.
  - apply (Hexample _ _ 1699920000000 1700006399999 1700006400000);
      [lia | lia | right; lia | reflexivity].
Defined.

(** ** Length and order of the rankings *)

(** C2. After a fetch cycle that goes through, the ranking list has
    min(10, number of profiles not dropped by a like-count error) rows and
    is ordered non-increasing by [daily_score]. *)
Theorem rankings_top_ten_descending (env : Env) (w : World) (s e : Z)
  (data : list Profile) :
  startOfDay (zone env) (selectedDate w) = Some s ->
  endOfDay (zone env) (selectedDate w) = Some e ->
  profilesReply env = Resolved (Some data) None ->
  forallb (fun p => negb (likesRejected env p)) data = true ->
  length (rankings (run (fetchRankings env) w))
  = Nat.min 10 (length (keptProfiles env data))
  /\ StronglySorted scoreDescending (rankings (run (fetchRankings env) w)).
Proof.
  intros Hs He Hdata Hlikes. unfold run.
  rewrite (fetchRankings_ok _ _ _ _ _ Hs He Hdata Hlikes).
  cbn [snd rankings]. split.
  - rewrite sortedRankings_length, length_map. reflexivity.
  - apply sortedRankings_descending.
Qed.

Lemma rankings_top_ten_descending_witness :
  length (rankings (run (fetchRankings Sample.env) Sample.mounted))
  = Nat.min 10 (length (keptProfiles Sample.env
                          [Sample.dave; Sample.carol; Sample.bob;
                           Sample.alice]))
  /\ StronglySorted scoreDescending
       (rankings (run (fetchRankings Sample.env) Sample.mounted)).
Proof.
  apply (rankings_top_ten_descending Sample.env Sample.mounted
           1699920000000 1700006399999); reflexivity.
Defined.

(** ** Errors of the fetch cycle *)

(** C7. A like-count request that comes back with an error drops its
    profile and nothing else. When no like-count request is rejected,
    [Promise.all] resolves and the cycle goes on to its end: the profile
    whose request failed is left out of the aggregated set, with its error
    on the console, every other profile is in it, in the order of the
    fetch, and the rankings are set from that set. *)
Theorem likes_error_drops_only_that_profile (env : Env) (w : World)
  (s e : Z) (data : list Profile) :
  startOfDay (zone env) (selectedDate w) = Some s ->
  endOfDay (zone env) (selectedDate w) = Some e ->
  profilesReply env = Resolved (Some data) None ->
  forallb (fun p => negb (likesRejected env p)) data = true ->
  exists userStats,
    (forall w0, fst (promiseAll (map (likesCallback env s e) data) w0)
                = Normal userStats)
    /\ validUserStats userStats
       = map (fun p => userStat s e p (likesDataOf env p))
             (keptProfiles env data)
    /\ (forall p, In p data -> likesFailed env p = true ->
          forall r, In r (validUserStats userStats) ->
                    id r <> profile_id p)
    /\ (forall p, In p data -> likesFailed env p = false ->
          In (userStat s e p (likesDataOf env p)) (validUserStats userStats))
    /\ fst (fetchRankings env w) = Normal tt
    /\ rankings (run (fetchRankings env) w)
       = sortedRankings (validUserStats userStats)
    /\ loading (run (fetchRankings env) w) = false
    /\ (forall p data0 error,
          In p data ->
          likesReply env (profile_id p) = Resolved data0 (Some error) ->
          In (ConsoleError "Error fetching likes:" error)
             (trace (run (fetchRankings env) w))).
Proof.
  intros Hs He Hdata Hlikes.
  exists (map (statOf env s e) data).
  split; [|split; [|split; [|split]]].
  - intro w0. rewrite (promiseAll_likes _ _ _ _ _ Hlikes). reflexivity.
  - apply validUserStats_statOf.
  - intros p Hp Hfail r Hr Hid.
    rewrite validUserStats_statOf in Hr. apply in_map_iff in Hr.
    destruct Hr as [q [Hq Hin]]. subst r.
    unfold keptProfiles in Hin. apply filter_In in Hin.
    destruct Hin as [_ Hkept]. apply negb_true_iff in Hkept.
    cbn [userStat id] in Hid.
    unfold likesFailed in Hfail, Hkept. rewrite Hid in Hkept.
    congruence.
  - intros p Hp Hok. rewrite validUserStats_statOf.
    apply in_map_iff. exists p. split; [reflexivity|].
    unfold keptProfiles. apply filter_In. split; [exact Hp|].
    rewrite Hok. reflexivity.
  - unfold run. rewrite (fetchRankings_ok _ _ _ _ _ Hs He Hdata Hlikes).
    cbn [fst snd rankings loading trace].
    rewrite validUserStats_statOf.
    split; [reflexivity|]. split; [reflexivity|]. split; [reflexivity|].
    intros p data0 error Hp Hreply.
    apply in_or_app. right. right. unfold likesEvents.
    apply in_or_app. right.
    apply resumeEvents_In with (p := p) (data0 := data0).
    + apply firstRejection_None. exact Hlikes.
    + eapply Permutation_in; [apply arrivalOrder_perm | exact Hp].
    + exact Hreply.
Qed.

Lemma likes_error_drops_only_that_profile_witness :
  exists userStats,
    (forall w0,
        fst (promiseAll
               (map (likesCallback Sample.env 1699920000000 1700006399999)
                    [Sample.dave; Sample.carol; Sample.bob; Sample.alice])
               w0)
        = Normal userStats)
    /\ validUserStats userStats
       = map (fun p => userStat 1699920000000 1700006399999 p
                         (likesDataOf Sample.env p))
             [Sample.carol; Sample.bob; Sample.alice]
    /\ rankings (run (fetchRankings Sample.env) Sample.mounted)
       = sortedRankings (validUserStats userStats)
    /\ In (ConsoleError "Error fetching likes:" "timeout")
          (trace (run (fetchRankings Sample.env) Sample.mounted)).
Proof.
  destruct (likes_error_drops_only_that_profile Sample.env Sample.mounted
              1699920000000 1700006399999
              [Sample.dave; Sample.carol; Sample.bob; Sample.alice]
              eq_refl eq_refl eq_refl eq_refl)
    as [userStats [Hall [Hvalid [_ [_ [_ [Hrankings [_ Hlogged]]]]]]]].
  exists userStats.
  split; [exact Hall|]. split; [exact Hvalid|]. split; [exact Hrankings|].
  apply (Hlogged Sample.dave None "timeout");
    [left; reflexivity | reflexivity].
Defined.

(** C8. When the bulk query of profiles and logs fails, by an error in its
    result or by a rejection, the cycle stops there: the rankings are the
    ones from before, [loading] is cleared, the error is on the console,
    and no like-count request has been sent. *)
Theorem bulk_failure_aborts_cycle (env : Env) (w : World) :
  bulkFailed env = true ->
  rankings (run (fetchRankings env) w) = rankings w
  /\ loading (run (fetchRankings env) w) = false
  /\ exists events,
       trace (run (fetchRankings env) w) = trace w ++ events
       /\ existsb isConsoleError events = true
       /\ existsb isSelectLikes events = false.
Proof.
  unfold bulkFailed, run, fetchRankings, tryFinally, tryCatch,
    getSelectedDate, setLoading, await, consoleError, emit, bind.
  cbn [selectedDate rankings loading trace].
  destruct (startOfDay (zone env) (selectedDate w)) as [s|];
    [destruct (endOfDay (zone env) (selectedDate w)) as [e|];
     [destruct (profilesReply env) as [data [err|]|reason];
      try discriminate|]|];
    intros _; js_eval;
    (split; [reflexivity|]); (split; [reflexivity|]).
  - exists [SelectProfiles; ConsoleError "Supabase error:" err].
    rewrite <- app_assoc. repeat split.
  - exists [SelectProfiles; ConsoleError "Error fetching rankings:" reason].
    rewrite <- app_assoc. repeat split.
  - eexists. repeat split.
  - eexists. repeat split.
Qed.

Lemma bulk_failure_aborts_cycle_witness :
  rankings (run (fetchRankings Sample.denied) Sample.shown)
  = rankings Sample.shown
  /\ loading (run (fetchRankings Sample.denied) Sample.shown) = false
  /\ exists events,
       trace (run (fetchRankings Sample.denied) Sample.shown)
       = trace Sample.shown ++ events
       /\ existsb isConsoleError events = true
       /\ existsb isSelectLikes events = false.
Proof.
  apply (bulk_failure_aborts_cycle Sample.denied Sample.shown).
  reflexivity.
Defined.

(** With valid day bounds the failed cycle leaves exactly the request and
    one line on the console. *)
Lemma bulk_error_trace (env : Env) (w : World) (s e : Z)
  (data : option (list Profile)) (err : string) :
  startOfDay (zone env) (selectedDate w) = Some s ->
  endOfDay (zone env) (selectedDate w) = Some e ->
  profilesReply env = Resolved data (Some err) ->
  fetchRankings env w
  = (Normal tt,
     {| rankings := rankings w; loading := false;
        selectedDate := selectedDate w;
        trace := trace w
                 ++ [SelectProfiles; ConsoleError "Supabase error:" err] |}).
Proof.
  intros Hs He Hreply.
  unfold fetchRankings, tryFinally, tryCatch, getSelectedDate, setLoading,
    await, consoleError, emit, bind.
  cbn [selectedDate rankings loading trace].
  rewrite Hs, He, Hreply. cbn [toISOString ret].
  cbn [selectedDate rankings loading trace].
  rewrite <- app_assoc. reflexivity.
Qed.

(** A rejected like-count request is not one of the dropped profiles: it
    rejects [Promise.all], and the cycle ends in the catch block with the
    rankings of before. *)
Lemma likes_rejection_aborts_cycle (env : Env) (w : World) (s e : Z)
  (data : list Profile) :
  startOfDay (zone env) (selectedDate w) = Some s ->
  endOfDay (zone env) (selectedDate w) = Some e ->
  profilesReply env = Resolved (Some data) None ->
  forallb (fun p => negb (likesRejected env p)) data = false ->
  rankings (run (fetchRankings env) w) = rankings w
  /\ loading (run (fetchRankings env) w) = false.
Proof.
  intros Hs He Hdata Hrej. unfold run.
  rewrite (fetchRankings_fetched _ _ _ _ _ Hs He Hdata).
  cbn [snd rankings loading].
  destruct (firstRejection env (arrivalOrder env data)) eqn:Hfirst.
  - split; reflexivity.
  - apply firstRejection_None in Hfirst. congruence.
Qed.

(** ** The like action *)

Lemma applyLike_absent (profileId : string) (rs : list UserRanking) :
  ~ In profileId (map id rs) -> applyLike profileId rs = rs.
Proof.
  induction rs as [|r rest IH]; intro H; [reflexivity|].
  simpl in *. destruct (String.eqb_spec (id r) profileId) as [Heq|Hne].
  - exfalso. apply H. left. exact Heq.
  - f_equal. apply IH. intro Hin. apply H. right. exact Hin.
Qed.

Lemma applyLike_split (profileId : string) (rs : list UserRanking) :
  NoDup (map id rs) ->
  In profileId (map id rs) ->
  exists before row after,
    rs = before ++ row :: after
    /\ id row = profileId
    /\ applyLike profileId rs
       = before ++ withLikes row (likes row + 1) true :: after.
Proof.
  induction rs as [|r rest IH]; intros Hnd Hin; [contradiction|].
  simpl in Hnd. inversion Hnd as [|x l Hnotin Hnd' [Hx Hl]]. subst x l.
  destruct (String.eqb_spec (id r) profileId) as [Heq|Hne].
  - exists [], r, rest. split; [reflexivity|]. split; [exact Heq|].
    unfold applyLike. cbn [map app].
    rewrite (proj2 (String.eqb_eq _ _) Heq). f_equal.
    apply applyLike_absent. rewrite <- Heq. exact Hnotin.
  - destruct Hin as [Hin|Hin]; [contradiction|].
    destruct (IH Hnd' Hin) as [before [row [after [Hrs [Hid Happ]]]]].
    exists (r :: before), row, after.
    split; [rewrite Hrs; reflexivity|]. split; [exact Hid|].
    unfold applyLike in *. cbn [map app].
    rewrite (proj2 (String.eqb_neq _ _) Hne), Happ. reflexivity.
Qed.

Lemma revertLike_applyLike (profileId : string) (rs : list UserRanking) :
  (forall r, In r rs -> id r = profileId -> hasLiked r = false) ->
  revertLike profileId (applyLike profileId rs) = rs.
Proof.
  induction rs as [|r rest IH]; intro H; [reflexivity|].
  unfold revertLike, applyLike in *. cbn [map].
  rewrite IH by (intros r' Hr'; apply H; right; exact Hr').
  f_equal.
  destruct (String.eqb (id r) profileId) eqn:Heq.
  - cbn [withLikes id]. rewrite Heq.
    assert (Hl : hasLiked r = false)
      by (apply H; [left; reflexivity | apply String.eqb_eq; exact Heq]).
    destruct r; cbn in Hl. subst. unfold withLikes. cbn. f_equal. lia.
  - rewrite Heq. reflexivity.
Qed.

Lemma handleLike_anonymous (env : Env) (profileId : string) (w : World) :
  user env = None ->
  handleLike env profileId w
  = (Normal tt,
     addTrace w [Alert "You must be logged in to like a score."]).
Proof.
  intro H. unfold handleLike. rewrite H. reflexivity.
Qed.

Lemma handleLike_inserted (env : Env) (profileId : string) (w : World)
  (viewer : User) (data : option unit) :
  user env = Some viewer ->
  insertReply env = Resolved data None ->
  handleLike env profileId w
  = (Normal tt,
     {| rankings := applyLike profileId (rankings w);
        loading := loading w;
        selectedDate := selectedDate w;
        trace := trace w
                 ++ [InsertLike (user_id viewer) profileId (now env)] |}).
Proof.
  intros Hu Hr. unfold handleLike. rewrite Hu.
  unfold tryCatch, setRankings, await, emit, bind. rewrite Hr.
  reflexivity.
Qed.

Lemma handleLike_error (env : Env) (profileId : string) (w : World)
  (viewer : User) (data : option unit) (err : string) :
  user env = Some viewer ->
  insertReply env = Resolved data (Some err) ->
  handleLike env profileId w
  = (Normal tt,
     {| rankings := revertLike profileId (applyLike profileId (rankings w));
        loading := loading w;
        selectedDate := selectedDate w;
        trace := trace w
                 ++ [InsertLike (user_id viewer) profileId (now env);
                     ConsoleError "Error liking profile:" err;
                     Alert "Failed to like profile. Please try again."] |}).
Proof.
  intros Hu Hr. unfold handleLike. rewrite Hu.
  unfold tryCatch, setRankings, await, consoleError, alert, emit, bind.
  rewrite Hr. js_eval. rewrite <- !app_assoc. reflexivity.
Qed.

Lemma handleLike_rejected (env : Env) (profileId : string) (w : World)
  (viewer : User) (reason : string) :
  user env = Some viewer ->
  insertReply env = Rejected reason ->
  handleLike env profileId w
  = (Normal tt,
     {| rankings := applyLike profileId (rankings w);
        loading := loading w;
        selectedDate := selectedDate w;
        trace := trace w
                 ++ [InsertLike (user_id viewer) profileId (now env);
                     ConsoleError "Error liking profile:" reason;
                     Alert "Failed to like profile. Please try again."] |}).
Proof.
  intros Hu Hr. unfold handleLike. rewrite Hu.
  unfold tryCatch, setRankings, await, consoleError, alert, emit, bind.
  rewrite Hr. js_eval. rewrite <- !app_assoc. reflexivity.
Qed.

(** C5. With no authenticated viewer the like action sends no request to
    the data service and leaves every ranking row as it was; the only thing
    it does is the alert, and it ends there. *)
Theorem like_without_viewer_is_refused (env : Env) (profileId : string)
  (w : World) :
  user env = None ->
  rankings (run (handleLike env profileId) w) = rankings w
  /\ trace (run (handleLike env profileId) w)
     = trace w ++ [Alert "You must be logged in to like a score."]
  /\ (forall ev, In ev (trace (run (handleLike env profileId) w)) ->
        isRequest ev = true -> In ev (trace w))
  /\ fst (handleLike env profileId w) = Normal tt.
Proof.
  intro H. unfold run. rewrite (handleLike_anonymous _ _ _ H).
  cbn [fst snd addTrace rankings trace].
  repeat split.
  intros ev Hin Hreq. apply in_app_or in Hin.
  destruct Hin as [Hin|[<-|[]]]; [exact Hin | discriminate].
Qed.

Lemma like_without_viewer_is_refused_witness :
  rankings (run (handleLike Sample.anonymous "bob") Sample.shown)
  = rankings Sample.shown
  /\ trace (run (handleLike Sample.anonymous "bob") Sample.shown)
     = trace Sample.shown ++ [Alert "You must be logged in to like a score."]
  /\ (forall ev,
        In ev (trace (run (handleLike Sample.anonymous "bob") Sample.shown)) ->
        isRequest ev = true -> In ev (trace Sample.shown))
  /\ fst (handleLike Sample.anonymous "bob" Sample.shown) = Normal tt.
Proof.
  apply (like_without_viewer_is_refused Sample.anonymous "bob" Sample.shown).
  reflexivity.
Defined.

(** C6. Profile ids identify the rows. A like by an authenticated viewer
    whose insert succeeds changes exactly one row of the rankings: the row
    with that id gets [likes] one higher and [hasLiked] true, with its
    other fields as they were, and the rows before and after it are
    unchanged. *)
Theorem successful_like_changes_one_row (env : Env) (profileId : string)
  (w : World) (viewer : User) (data : option unit) :
  user env = Some viewer ->
  insertReply env = Resolved data None ->
  NoDup (map id (rankings w)) ->
  In profileId (map id (rankings w)) ->
  exists before row after,
    rankings w = before ++ row :: after
    /\ id row = profileId
    /\ rankings (run (handleLike env profileId) w)
       = before
         ++ {| id := id row;
               first_name := first_name row;
               last_name := last_name row;
               profile_name := profile_name row;
               total_workouts := total_workouts row;
               total_score := total_score row;
               daily_score := daily_score row;
               likes := likes row + 1;
               hasLiked := true |}
         :: after.
Proof.
  intros Hu Hr Hnd Hin. unfold run.
  rewrite (handleLike_inserted _ _ _ _ _ Hu Hr). cbn [snd rankings].
  destruct (applyLike_split _ _ Hnd Hin)
    as [before [row [after [Hrs [Hid Happ]]]]].
  exists before, row, after. auto.
Qed.

Lemma successful_like_changes_one_row_witness :
  exists before row after,
    rankings Sample.shown = before ++ row :: after
    /\ id row = "bob"
    /\ rankings (run (handleLike Sample.env "bob") Sample.shown)
       = before
         ++ {| id := id row;
               first_name := first_name row;
               last_name := last_name row;
               profile_name := profile_name row;
               total_workouts := total_workouts row;
               total_score := total_score row;
               daily_score := daily_score row;
               likes := likes row + 1;
               hasLiked := true |}
         :: after.
Proof.
  apply (successful_like_changes_one_row Sample.env "bob" Sample.shown
           Sample.viewer None).
  - reflexivity.
  - reflexivity.
  - repeat constructor; simpl; intuition discriminate.
  - simpl. right. left. reflexivity.
Defined.

(** The button of a row that is already liked does nothing. *)
Lemma likeButton_disabled (env : Env) (row : UserRanking) (w : World) :
  hasLiked row = true -> likeButton env row w = (Normal tt, w).
Proof.
  intro H. unfold likeButton. rewrite H. reflexivity.
Qed.

(** An insert that comes back with an error is taken back: for a row that
    was not liked before, which is when its button is enabled, the rankings
    are those of before the click. *)
Lemma like_error_reverts (env : Env) (profileId : string) (w : World)
  (viewer : User) (data : option unit) (err : string) :
  user env = Some viewer ->
  insertReply env = Resolved data (Some err) ->
  (forall r, In r (rankings w) -> id r = profileId -> hasLiked r = false) ->
  rankings (run (handleLike env profileId) w) = rankings w.
Proof.
  intros Hu Hr Hfresh. unfold run.
  rewrite (handleLike_error _ _ _ _ _ _ Hu Hr). cbn [snd rankings].
  apply revertLike_applyLike. exact Hfresh.
Qed.

(** An insert that is rejected ends in the catch block, which logs and
    alerts but applies no update: the optimistic one stays. *)
Lemma like_rejected_stays (env : Env) (profileId : string) (w : World)
  (viewer : User) (reason : string) :
  user env = Some viewer ->
  insertReply env = Rejected reason ->
  rankings (run (handleLike env profileId) w)
  = applyLike profileId (rankings w).
Proof.
  intros Hu Hr. unfold run.
  rewrite (handleLike_rejected _ _ _ _ _ Hu Hr). reflexivity.
Qed.



(** ** Daily score against total score *)

Lemma spec_daily_le_total (lo hi : Z) (logs : list WorkoutLog) :
  nonNegativeTotals logs ->
  spec_daily_score lo hi logs <= spec_total_score logs.
Proof.
  induction logs as [|log rest IH]; intro H; simpl; [lia|].
  assert (Hrest : nonNegativeTotals rest)
    by (intros l v Hl; apply H; right; exact Hl).
  specialize (IH Hrest).
  assert (Hlog : 0 <= match total log with Some v => v | None => 0 end).
  { destruct (total log) as [v|] eqn:Hv; [|lia].
    apply (H log v); [left; reflexivity | exact Hv]. }
  destruct (withinDay lo hi (completed_at log)); lia.
Qed.

(** C4, as the code has it. A profile whose log totals are 0 or more where
    they are present (a missing total counts as 0) gets a [daily_score]
    that is at most its [total_score], whatever the totals of the other
    profiles are: so it is for every profile that is aggregated, and after
    a fetch cycle that goes through every row of the rankings is the row
    of such a profile of the reply. *)
Theorem daily_score_le_total_score :
  (forall (s e : Z) (p : Profile) (ld : option (list LikesRow)),
      nonNegativeTotals (logsOf p) ->
      daily_score (userStat s e p ld) <= total_score (userStat s e p ld))
  /\ (forall (env : Env) (w : World) (s e : Z) (data : list Profile),
         startOfDay (zone env) (selectedDate w) = Some s ->
         endOfDay (zone env) (selectedDate w) = Some e ->
         profilesReply env = Resolved (Some data) None ->
         forallb (fun p => negb (likesRejected env p)) data = true ->
         forall r, In r (rankings (run (fetchRankings env) w)) ->
           exists p, In p data
                     /\ r = userStat s e p (likesDataOf env p)
                     /\ (nonNegativeTotals (logsOf p) ->
                         daily_score r <= total_score r)).
Proof.
  assert (Hone : forall (s e : Z) (p : Profile) (ld : option (list LikesRow)),
             nonNegativeTotals (logsOf p) ->
             daily_score (userStat s e p ld)
             <= total_score (userStat s e p ld)).
  { intros s e p ld Hpos.
    rewrite daily_score_userStat, total_score_userStat.
    apply spec_daily_le_total, Hpos. }
  split; [exact Hone|].
  intros env w s e data Hs He Hdata Hlikes r Hr.
  destruct (fetched_row_origin _ _ _ _ _ _ Hs He Hdata Hlikes Hr)
    as [p [Hin [_ ->]]].
  exists p. split; [exact Hin|]. split; [reflexivity|]. apply Hone.
Qed.

Lemma daily_score_le_total_score_witness :
  daily_score (userStat 1699920000000 1700006399999 Sample.alice None)
  <= total_score (userStat 1699920000000 1700006399999 Sample.alice None)
  /\ Forall
       (fun r =>
          exists p,
            In p [Sample.dave; Sample.carol; Sample.bob; Sample.alice]
            /\ r = userStat 1699920000000 1700006399999 p
                     (likesDataOf Sample.env p)
            /\ (nonNegativeTotals (logsOf p) ->
                daily_score r <= total_score r))
       (rankings (run (fetchRankings Sample.env) Sample.mounted)).
Proof.
  destruct daily_score_le_total_score as [Hone Hrows].
  split.
  - apply Hone. intros log v; simpl.
    intros [<-|[<-|[<-|[]]]]; simpl; intro Hv; inversion Hv; lia.
  - apply Forall_forall.
    apply (Hrows Sample.env Sample.mounted); reflexivity.
Defined.

(** C4 as stated fails on a negative total: bob has 5 today and -3 the day
    before, so his daily score 5 is above his total score 2. *)
Lemma daily_score_above_total_score :
  exists r,
    In r (rankings (run (fetchRankings Sample.env) Sample.mounted))
    /\ id r = "bob"
    /\ daily_score r = 5
    /\ total_score r = 2
    /\ ~ daily_score r <= total_score r.
Proof.
  exists (userStat 1699920000000 1700006399999 Sample.bob
            (Some [ {| count := Some 2 |} ])).
  split; [right; left; reflexivity|].
  repeat split. vm_compute. intro H. apply H. reflexivity.
Qed.

(** ** Days *)

Lemma TimeClip_valid (t : Z) : validTime t -> TimeClip t = Some t.
Proof.
  unfold validTime, TimeClip. intro H.
  destruct (Z.gtb_spec (Z.abs t) maxTime); [lia | reflexivity].
Qed.

Lemma TimeClip_Some (t u : Z) : TimeClip t = Some u -> u = t /\ validTime t.
Proof.
  unfold validTime, TimeClip.
  destruct (Z.gtb_spec (Z.abs t) maxTime) as [Hgt|Hle]; intro Hclip;
    [discriminate|].
  inversion Hclip. split; [reflexivity | lia].
Qed.

Lemma wall_clock_split (x : Z) :
  x = Day x * msPerDay + TimeWithinDay x.
Proof.
  unfold Day, TimeWithinDay.
  rewrite Z.mul_comm. apply Z.div_mod. discriminate.
Qed.

Lemma Day_shift (x n : Z) : Day (x + n * msPerDay) = Day x + n.
Proof.
  unfold Day. apply Z.div_add. discriminate.
Qed.

Lemma TimeWithinDay_shift (x n : Z) :
  TimeWithinDay (x + n * msPerDay) = TimeWithinDay x.
Proof.
  unfold TimeWithinDay. apply Z.mod_add. discriminate.
Qed.

(** [setDate] moves the wall-clock time by whole days and asks the zone
    for the instant. *)
Lemma addDays_wall_clock (tz : Zone) (t n : Z) :
  n <> 0 ->
  addDays tz (Some t) n = TimeClip (UTC tz (LocalTime tz t + n * msPerDay)).
Proof.
  intro Hn. unfold addDays.
  destruct (Z.eqb_spec n 0) as [|_]; [contradiction|].
  f_equal. f_equal.
  pose proof (wall_clock_split (LocalTime tz t)) as Hsplit. lia.
Qed.

Lemma fixedOffset_LocalTime (offset t : Z) :
  LocalTime (fixedOffset offset) t = t + offset.
Proof. reflexivity. Qed.

Lemma fixedOffset_UTC (offset t : Z) :
  UTC (fixedOffset offset) t = t - offset.
Proof. reflexivity. Qed.

(** A zone with a fixed offset has every wall-clock time. *)
Lemma fixedOffset_keepsWallClock (offset x : Z) :
  keepsWallClock (fixedOffset offset) x.
Proof.
  unfold keepsWallClock. rewrite fixedOffset_LocalTime, fixedOffset_UTC. lia.
Qed.

(** With a fixed offset, the bounds that [fetchRankings] computes enclose
    exactly the local calendar day of the selected date. *)
Lemma day_bounds_enclose_the_day (tz t0 s e t : Z) :
  startOfDay tz (Some t0) = Some s ->
  endOfDay tz (Some t0) = Some e ->
  (s <= t <= e <-> localDay tz t = localDay tz t0).
Proof.
  unfold startOfDay, endOfDay. intros Hs He.
  apply TimeClip_Some in Hs. apply TimeClip_Some in He.
  destruct Hs as [-> _]. destruct He as [-> _].
  unfold localDay. rewrite !fixedOffset_UTC, !fixedOffset_LocalTime.
  pose proof (wall_clock_split (t + tz)) as Hsplit.
  assert (Hmod : 0 <= TimeWithinDay (t + tz) < msPerDay)
    by (apply Z.mod_pos_bound; reflexivity).
  set (d := Day (t + tz)) in *.
  set (d0 := Day (t0 + tz)) in *.
  set (r := TimeWithinDay (t + tz)) in *.
  unfold msPerDay in *.
  split; intro Hin.
  - assert (Hd : d0 * 86400000 <= d * 86400000 + r
                 <= d0 * 86400000 + 86399999) by lia.
    assert (Hlow : ~ d < d0) by lia.
    assert (Hhigh : ~ d0 < d) by lia.
    lia.
  - rewrite <- Hin. lia.
Qed.

Lemma selectedDate_next (env : Env) (w : World) :
  selectedDate (run (handleNextDay env) w)
  = addDays (zone env) (selectedDate w) 1.
Proof. reflexivity. Qed.

Lemma selectedDate_prev (env : Env) (w : World) :
  selectedDate (run (handlePrevDay env) w)
  = addDays (zone env) (selectedDate w) (- 1).
Proof. reflexivity. Qed.

(** One step of the navigation from a date whose wall-clock time is
    known. *)
Lemma shifted_wall_clock (tz : Zone) (u x n : Z) :
  n <> 0 ->
  LocalTime tz u = x ->
  keepsWallClock tz (x + n * msPerDay) ->
  validTime (UTC tz (x + n * msPerDay)) ->
  exists u', addDays tz (Some u) n = Some u'
             /\ LocalTime tz u' = x + n * msPerDay.
Proof.
  intros Hn Hx Hkeeps Hvalid.
  exists (UTC tz (x + n * msPerDay)). split; [|exact Hkeeps].
  rewrite (addDays_wall_clock _ _ _ Hn), Hx.
  apply TimeClip_valid. exact Hvalid.
Qed.

Lemma next_days_reach (env : Env) (w : World) (t : Z) (k : nat) :
  selectedDate w = Some t ->
  (forall j : nat, (1 <= j <= k)%nat ->
     keepsWallClock (zone env)
       (LocalTime (zone env) t + Z.of_nat j * msPerDay)
     /\ validTime (UTC (zone env)
                     (LocalTime (zone env) t + Z.of_nat j * msPerDay))) ->
  exists u,
    selectedDate (Nat.iter k (run (handleNextDay env)) w) = Some u
    /\ LocalTime (zone env) u
       = LocalTime (zone env) t + Z.of_nat k * msPerDay.
Proof.
  intros Hw. induction k as [|k IH]; intro Hsteps.
  - exists t. split; [exact Hw|]. cbn. lia.
  - destruct IH as [u [Hu Hlocal]].
    { intros j Hj. apply Hsteps. lia. }
    destruct (Hsteps (S k)) as [Hkeeps Hvalid]; [lia|].
    destruct (shifted_wall_clock (zone env) u _ 1 ltac:(discriminate) Hlocal)
      as [u' [Hu' Hlocal']].
    + replace (LocalTime (zone env) t + Z.of_nat k * msPerDay
               + 1 * msPerDay)
        with (LocalTime (zone env) t + Z.of_nat (S k) * msPerDay) by lia.
      exact Hkeeps.
    + replace (LocalTime (zone env) t + Z.of_nat k * msPerDay
               + 1 * msPerDay)
        with (LocalTime (zone env) t + Z.of_nat (S k) * msPerDay) by lia.
      exact Hvalid.
    + exists u'. rewrite Nat.iter_succ, selectedDate_next, Hu.
      split; [exact Hu'|]. rewrite Hlocal'. lia.
Qed.

Lemma prev_days_reach (env : Env) (w : World) (t : Z) (k : nat) :
  selectedDate w = Some t ->
  (forall j : nat, (1 <= j <= k)%nat ->
     keepsWallClock (zone env)
       (LocalTime (zone env) t - Z.of_nat j * msPerDay)
     /\ validTime (UTC (zone env)
                     (LocalTime (zone env) t - Z.of_nat j * msPerDay))) ->
  exists u,
    selectedDate (Nat.iter k (run (handlePrevDay env)) w) = Some u
    /\ LocalTime (zone env) u
       = LocalTime (zone env) t - Z.of_nat k * msPerDay.
Proof.
  intros Hw. induction k as [|k IH]; intro Hsteps.
  - exists t. split; [exact Hw|]. cbn. lia.
  - destruct IH as [u [Hu Hlocal]].
    { intros j Hj. apply Hsteps. lia. }
    destruct (Hsteps (S k)) as [Hkeeps Hvalid]; [lia|].
    destruct (shifted_wall_clock (zone env) u _ (- 1) ltac:(discriminate)
                Hlocal)
      as [u' [Hu' Hlocal']].
    + replace (LocalTime (zone env) t - Z.of_nat k * msPerDay
               + - 1 * msPerDay)
        with (LocalTime (zone env) t - Z.of_nat (S k) * msPerDay) by lia.
      exact Hkeeps.
    + replace (LocalTime (zone env) t - Z.of_nat k * msPerDay
               + - 1 * msPerDay)
        with (LocalTime (zone env) t - Z.of_nat (S k) * msPerDay) by lia.
      exact Hvalid.
    + exists u'. rewrite Nat.iter_succ, selectedDate_prev, Hu.
      split; [exact Hu'|]. rewrite Hlocal'. lia.
Qed.

(** C9, as the code has it. The handlers check no bounds of their own.
    "Previous day" and "next day" set the selected date to the instant that
    the zone gives for the same wall-clock time one calendar day earlier or
    later, and to an Invalid Date when that instant is outside the range a
    Date can hold. Where the zone has that wall-clock time the new date is
    on the local calendar day just before or after, at the same time of
    day. Repeated, the handlers reach the date any number of days away,
    when the days on the way are of that kind and in the range. *)
Theorem day_navigation_shifts_one_day (env : Env) (w : World) (t : Z) :
  selectedDate w = Some t ->
  selectedDate (run (handlePrevDay env) w)
  = TimeClip (UTC (zone env) (LocalTime (zone env) t - msPerDay))
  /\ selectedDate (run (handleNextDay env) w)
     = TimeClip (UTC (zone env) (LocalTime (zone env) t + msPerDay))
  /\ (forall u,
        selectedDate (run (handlePrevDay env) w) = Some u ->
        keepsWallClock (zone env) (LocalTime (zone env) t - msPerDay) ->
        localDay (zone env) u = localDay (zone env) t - 1
        /\ TimeWithinDay (LocalTime (zone env) u)
           = TimeWithinDay (LocalTime (zone env) t))
  /\ (forall u,
        selectedDate (run (handleNextDay env) w) = Some u ->
        keepsWallClock (zone env) (LocalTime (zone env) t + msPerDay) ->
        localDay (zone env) u = localDay (zone env) t + 1
        /\ TimeWithinDay (LocalTime (zone env) u)
           = TimeWithinDay (LocalTime (zone env) t))
  /\ (forall k : nat,
        (forall j : nat, (1 <= j <= k)%nat ->
           keepsWallClock (zone env)
             (LocalTime (zone env) t - Z.of_nat j * msPerDay)
           /\ validTime (UTC (zone env)
                           (LocalTime (zone env) t
                            - Z.of_nat j * msPerDay))) ->
        exists u,
          selectedDate (Nat.iter k (run (handlePrevDay env)) w) = Some u
          /\ LocalTime (zone env) u
             = LocalTime (zone env) t - Z.of_nat k * msPerDay)
  /\ (forall k : nat,
        (forall j : nat, (1 <= j <= k)%nat ->
           keepsWallClock (zone env)
             (LocalTime (zone env) t + Z.of_nat j * msPerDay)
           /\ validTime (UTC (zone env)
                           (LocalTime (zone env) t
                            + Z.of_nat j * msPerDay))) ->
        exists u,
          selectedDate (Nat.iter k (run (handleNextDay env)) w) = Some u
          /\ LocalTime (zone env) u
             = LocalTime (zone env) t + Z.of_nat k * msPerDay).
Proof.
  intro Hw.
  assert (Hprev : selectedDate (run (handlePrevDay env) w)
                  = TimeClip (UTC (zone env)
                                (LocalTime (zone env) t - msPerDay))).
  { rewrite selectedDate_prev, Hw, addDays_wall_clock by discriminate.
    f_equal; f_equal; lia. }
  assert (Hnext : selectedDate (run (handleNextDay env) w)
                  = TimeClip (UTC (zone env)
                                (LocalTime (zone env) t + msPerDay))).
  { rewrite selectedDate_next, Hw, addDays_wall_clock by discriminate.
    f_equal; f_equal; lia. }
  split; [exact Hprev|]. split; [exact Hnext|].
  split; [|split; [|split]].
  - intros u Hu Hkeeps. rewrite Hprev in Hu.
    apply TimeClip_Some in Hu. destruct Hu as [-> _].
    unfold localDay. rewrite Hkeeps.
    replace (LocalTime (zone env) t - msPerDay)
      with (LocalTime (zone env) t + - 1 * msPerDay) by lia.
    rewrite Day_shift, TimeWithinDay_shift. split; [lia | reflexivity].
  - intros u Hu Hkeeps. rewrite Hnext in Hu.
    apply TimeClip_Some in Hu. destruct Hu as [-> _].
    unfold localDay. rewrite Hkeeps.
    replace (LocalTime (zone env) t + msPerDay)
      with (LocalTime (zone env) t + 1 * msPerDay) by lia.
    rewrite Day_shift, TimeWithinDay_shift. split; [lia | reflexivity].
  - intros k Hsteps. apply prev_days_reach; assumption.
  - intros k Hsteps. apply next_days_reach; assumption.
Qed.

Lemma day_navigation_shifts_one_day_witness :
  selectedDate (run (handlePrevDay Cases.newYorkEnv) Cases.march10)
  = Some 1710000000000
  /\ selectedDate (run (handleNextDay Cases.newYorkEnv) Cases.march9)
     = Some 1710082800000
  /\ (localDay (zone Cases.newYorkEnv) 1710082800000
      = localDay (zone Cases.newYorkEnv) 1710000000000 + 1
      /\ TimeWithinDay (LocalTime (zone Cases.newYorkEnv) 1710082800000)
         = TimeWithinDay (LocalTime (zone Cases.newYorkEnv) 1710000000000))
  /\ exists u,
       selectedDate
         (Nat.iter 2 (run (handleNextDay Cases.newYorkEnv)) Cases.march9)
       = Some u
       /\ LocalTime (zone Cases.newYorkEnv) u
          = LocalTime (zone Cases.newYorkEnv) 1710000000000
            + Z.of_nat 2 * msPerDay.
Proof.
  destruct (day_navigation_shifts_one_day Cases.newYorkEnv Cases.march10
              1710082800000 eq_refl) as [Hprev _].
  destruct (day_navigation_shifts_one_day Cases.newYorkEnv Cases.march9
              1710000000000 eq_refl)
    as [_ [Hnext [_ [Hday [_ Hreach]]]]].
  split; [exact Hprev|]. split; [exact Hnext|]. split.
  - apply Hday; reflexivity.
  - apply (Hreach 2%nat). intros j Hj.
    assert (Hcases : j = 1%nat \/ j = 2%nat) by lia.
    destruct Hcases as [-> | ->]; split;
      try reflexivity; unfold validTime; vm_compute; discriminate.
Defined.

(** C9 as stated fails at the end of the range of Date: "next day" on the
    last instant gives an Invalid Date, not a date one day later. *)
Lemma next_day_leaves_the_range :
  validTime maxTime
  /\ selectedDate (run (handleNextDay Sample.env) Sample.lastDay) = None
  /\ ~ (exists t,
          selectedDate (run (handleNextDay Sample.env) Sample.lastDay)
          = Some t
          /\ localDay 0 t = localDay 0 maxTime + 1).
Proof.
  split; [|split].
  - unfold validTime. vm_compute. discriminate.
  - reflexivity.
  - intros [t [H _]]. vm_compute in H. discriminate H.
Qed.

(** ** Missing totals and missing logs *)

Lemma spec_daily_score_app (lo hi : Z) (l1 l2 : list WorkoutLog) :
  spec_daily_score lo hi (l1 ++ l2)
  = spec_daily_score lo hi l1 + spec_daily_score lo hi l2.
Proof.
  induction l1 as [|log rest IH]; simpl; [reflexivity|].
  rewrite IH. lia.
Qed.

Lemma spec_total_score_app (l1 l2 : list WorkoutLog) :
  spec_total_score (l1 ++ l2) = spec_total_score l1 + spec_total_score l2.
Proof.
  induction l1 as [|log rest IH]; simpl; [reflexivity|].
  rewrite IH. lia.
Qed.

(** C10. A log whose [total] is missing adds 0 to [total_score] and to
    [daily_score], whenever it was completed, and 1 to [total_workouts]. A
    profile whose collection of logs is missing or empty gets 0 for the
    three of them. Such a profile is not dropped: whatever its logs, a
    profile whose like-count request brings no error has its row in the
    aggregated set. *)
Theorem missing_total_or_logs_count_as_zero :
  (forall (s e : Z) (p : Profile) (ld : option (list LikesRow))
          (before after : list WorkoutLog) (completed : Date),
      let log := {| total := None; completed_at := completed |} in
      let withLog :=
        userStat s e (withLogs p (Some (before ++ log :: after))) ld in
      let without :=
        userStat s e (withLogs p (Some (before ++ after))) ld in
      total_score withLog = total_score without
      /\ daily_score withLog = daily_score without
      /\ total_workouts withLog = total_workouts without + 1)
  /\ (forall (s e : Z) (p : Profile) (ld : option (list LikesRow)),
         workout_logs p = None \/ workout_logs p = Some [] ->
         total_workouts (userStat s e p ld) = 0
         /\ total_score (userStat s e p ld) = 0
         /\ daily_score (userStat s e p ld) = 0)
  /\ (forall (env : Env) (s e : Z) (data : list Profile) (p : Profile),
         forallb (fun q => negb (likesRejected env q)) data = true ->
         In p data ->
         likesFailed env p = false ->
         exists userStats,
           (forall w, fst (promiseAll (map (likesCallback env s e) data) w)
                      = Normal userStats)
           /\ In (userStat s e p (likesDataOf env p))
                 (validUserStats userStats)).
Proof.
  split; [|split].
  - intros s e p ld before after completed log withLog without.
    subst withLog without.
    rewrite !daily_score_userStat, !total_score_userStat,
      !total_workouts_userStat.
    unfold logsOf, withLogs. cbn [workout_logs].
    rewrite !spec_daily_score_app, !spec_total_score_app, !length_app.
    subst log.
    cbn [spec_daily_score spec_total_score length total completed_at].
    destruct (withinDay s e completed); repeat split; lia.
  - intros s e p ld Hlogs.
    rewrite daily_score_userStat, total_score_userStat,
      total_workouts_userStat.
    unfold logsOf. destruct Hlogs as [-> | ->]; repeat split.
  - intros env s e data p Hlikes Hin Hok.
    exists (map (statOf env s e) data). split.
    + intro w. rewrite (promiseAll_likes _ _ _ _ _ Hlikes). reflexivity.
    + rewrite validUserStats_statOf. apply in_map_iff.
      exists p. split; [reflexivity|].
      unfold keptProfiles. apply filter_In. split; [exact Hin|].
      rewrite Hok. reflexivity.
Qed.

Lemma missing_total_or_logs_count_as_zero_witness :
  (total_workouts (userStat 1699920000000 1700006399999 Sample.carol None)
   = 0
   /\ total_score (userStat 1699920000000 1700006399999 Sample.carol None)
      = 0
   /\ daily_score (userStat 1699920000000 1700006399999 Sample.carol None)
      = 0)
  /\ exists userStats,
       (forall w,
           fst (promiseAll
                  (map (likesCallback Sample.env 1699920000000 1700006399999)
                       [Sample.dave; Sample.carol; Sample.bob; Sample.alice])
                  w)
           = Normal userStats)
       /\ In (userStat 1699920000000 1700006399999 Sample.carol
                (likesDataOf Sample.env Sample.carol))
             (validUserStats userStats).
Proof.
  destruct missing_total_or_logs_count_as_zero as [_ [Hzero Hkept]].
  split.
  - apply Hzero. left. reflexivity.
  - apply Hkept.
    + reflexivity.
    + right. left. reflexivity.
    + reflexivity.
Defined.

(** * Further properties *)

(** ** Every path of the fetch cycle *)

Lemma resumeEvents_console (env : Env) (order : list Profile) :
  forallb isConsoleError (resumeEvents env order) = true.
Proof.
  induction order as [|p rest IH]; [reflexivity|].
  cbn [resumeEvents].
  destruct (likesReply env (profile_id p)) as [d [er|]|reason];
    [exact IH | exact IH | reflexivity].
Qed.

Lemma likesEvents_read_or_log (env : Env) (data : list Profile) :
  forallb isReadOrLog (likesEvents env data) = true.
Proof.
  unfold likesEvents. rewrite forallb_app. apply andb_true_intro. split.
  - rewrite forallb_forall. intros ev Hev. apply in_map_iff in Hev.
    destruct Hev as [p [<- _]]. reflexivity.
  - pose proof (resumeEvents_console env (arrivalOrder env data)) as H.
    rewrite forallb_forall in *. intros ev Hev. specialize (H ev Hev).
    destruct ev; try discriminate; reflexivity.
Qed.

Lemma likesEvents_requests (env : Env) (data : list Profile) :
  filter isRequest (likesEvents env data)
  = map (fun p => SelectLikes (profile_id p)) data.
Proof.
  unfold likesEvents. rewrite filter_app.
  assert (Hlogs : filter isRequest (resumeEvents env (arrivalOrder env data))
                  = []).
  { pose proof (resumeEvents_console env (arrivalOrder env data)) as H.
    induction (resumeEvents env (arrivalOrder env data)) as [|ev rest IH];
      [reflexivity|].
    cbn [forallb] in H. apply andb_prop in H. destruct H as [Hev Hrest].
    cbn [filter]. destruct ev; try discriminate. cbn. apply IH, Hrest. }
  rewrite Hlogs, app_nil_r. clear Hlogs.
  induction data as [|p rest IH]; [reflexivity|].
  cbn [map filter isRequest]. rewrite IH. reflexivity.
Qed.

Lemma fetchRankings_settles (env : Env) (w : World) :
  fst (fetchRankings env w) = Normal tt
  /\ loading (run (fetchRankings env) w) = false
  /\ selectedDate (run (fetchRankings env) w) = selectedDate w
  /\ exists events,
       trace (run (fetchRankings env) w) = trace w ++ events
       /\ forallb isReadOrLog events = true.
Proof.
  destruct (startOfDay (zone env) (selectedDate w)) as [s|] eqn:Hs;
    [destruct (endOfDay (zone env) (selectedDate w)) as [e|] eqn:He;
     [destruct (profilesReply env) as [[data|] [err|]|reason] eqn:Hr|]|].
  2: { unfold run. rewrite (fetchRankings_fetched _ _ _ _ _ Hs He Hr).
       cbn [fst snd loading selectedDate trace].
       repeat split. eexists. split; [reflexivity|].
       cbn [forallb isReadOrLog]. rewrite forallb_app, likesEvents_read_or_log.
       destruct (firstRejection env (arrivalOrder env data)); reflexivity. }
  all: unfold run, fetchRankings, tryFinally, tryCatch, getSelectedDate,
         setLoading, await, consoleError, emit, bind;
       cbn [selectedDate rankings loading trace];
       rewrite ?Hs, ?He, ?Hr; js_eval; repeat split;
       eexists; (split; [rewrite <- ?app_assoc; reflexivity | reflexivity]).
Qed.

(** X1. A fetch cycle always comes to an end without throwing, whatever
    the selected date and the replies are: [loading] is false after it, the
    selected date is the one it started with, and what it has added to the
    trace are read queries and console lines only, never an insert or an
    alert. *)
Theorem fetch_cycle_always_settles (env : Env) (w : World) :
  fst (fetchRankings env w) = Normal tt
  /\ loading (run (fetchRankings env) w) = false
  /\ selectedDate (run (fetchRankings env) w) = selectedDate w
  /\ exists events,
       trace (run (fetchRankings env) w) = trace w ++ events
       /\ forallb isReadOrLog events = true.
Proof.
  apply fetchRankings_settles.
Qed.

(** X2. A fetch cycle that goes through replaces the rankings wholesale:
    the new rows depend on the selected date and the replies only, not on
    the rows that were there, and every one of them has [hasLiked] false,
    also for a profile the viewer had liked before. *)
Theorem refetch_replaces_rankings (env : Env) (w1 w2 : World) (s e : Z)
  (data : list Profile) :
  selectedDate w1 = selectedDate w2 ->
  startOfDay (zone env) (selectedDate w1) = Some s ->
  endOfDay (zone env) (selectedDate w1) = Some e ->
  profilesReply env = Resolved (Some data) None ->
  forallb (fun p => negb (likesRejected env p)) data = true ->
  rankings (run (fetchRankings env) w1) = rankings (run (fetchRankings env) w2)
  /\ Forall (fun r => hasLiked r = false)
            (rankings (run (fetchRankings env) w1)).
Proof.
  intros Hsel Hs He Hdata Hlikes. unfold run.
  rewrite (fetchRankings_ok _ w1 _ _ _ Hs He Hdata Hlikes).
  rewrite Hsel in Hs, He.
  rewrite (fetchRankings_ok _ w2 _ _ _ Hs He Hdata Hlikes).
  cbn [snd rankings]. split; [reflexivity|].
  apply Forall_forall. intros r Hr.
  apply sortedRankings_In, in_map_iff in Hr.
  destruct Hr as [p [<- _]]. reflexivity.
Qed.

Lemma refetch_replaces_rankings_witness :
  rankings (run (fetchRankings Sample.env) Cases.liked)
  = rankings (run (fetchRankings Sample.env) Sample.mounted)
  /\ Forall (fun r => hasLiked r = false)
            (rankings (run (fetchRankings Sample.env) Cases.liked)).
Proof.
  apply (refetch_replaces_rankings Sample.env Cases.liked Sample.mounted
           1699920000000 1700006399999
           [Sample.dave; Sample.carol; Sample.bob; Sample.alice]);
    reflexivity.
Defined.

(** X3. A bulk reply with neither an error nor data makes [data.map]
    throw: the cycle ends in the catch block with one console line, the
    rankings stay as they were and no like-count request is sent. *)
Theorem bulk_reply_without_data (env : Env) (w : World) (s e : Z) :
  startOfDay (zone env) (selectedDate w) = Some s ->
  endOfDay (zone env) (selectedDate w) = Some e ->
  profilesReply env = Resolved None None ->
  rankings (run (fetchRankings env) w) = rankings w
  /\ loading (run (fetchRankings env) w) = false
  /\ exists message,
       trace (run (fetchRankings env) w)
       = trace w
         ++ [SelectProfiles; ConsoleError "Error fetching rankings:" message].
Proof.
  intros Hs He Hr.
  unfold run, fetchRankings, tryFinally, tryCatch, getSelectedDate,
    setLoading, await, consoleError, emit, bind.
  cbn [selectedDate rankings loading trace].
  rewrite Hs, He, Hr. js_eval. repeat split.
  eexists. rewrite <- app_assoc. reflexivity.
Qed.

Lemma bulk_reply_without_data_witness :
  rankings (run (fetchRankings Cases.noData) Sample.shown)
  = rankings Sample.shown
  /\ loading (run (fetchRankings Cases.noData) Sample.shown) = false
  /\ exists message,
       trace (run (fetchRankings Cases.noData) Sample.shown)
       = trace Sample.shown
         ++ [SelectProfiles; ConsoleError "Error fetching rankings:" message].
Proof.
  apply (bulk_reply_without_data Cases.noData Sample.shown
           1699920000000 1700006399999); reflexivity.
Defined.

(** X4. When the start or the end of the selected day is not a date that
    exists, which also happens for the last day a Date can hold,
    [toISOString] throws before anything is sent: the cycle leaves one
    console line, no request and the rankings of before. *)
Theorem fetch_with_invalid_day_bound (env : Env) (w : World) :
  startOfDay (zone env) (selectedDate w) = None
  \/ endOfDay (zone env) (selectedDate w) = None ->
  fetchRankings env w
  = (Normal tt,
     {| rankings := rankings w;
        loading := false;
        selectedDate := selectedDate w;
        trace :=
          trace w
          ++ [ConsoleError "Error fetching rankings:"
                "RangeError: Invalid time value"] |}).
Proof.
  intro H.
  unfold fetchRankings, tryFinally, tryCatch, getSelectedDate,
    setLoading, await, consoleError, emit, bind.
  cbn [selectedDate rankings loading trace].
  destruct (startOfDay (zone env) (selectedDate w)) as [s|].
  - destruct H as [H|H]; [discriminate|]. rewrite H. reflexivity.
  - reflexivity.
Qed.

Lemma fetch_with_invalid_day_bound_witness :
  validTime maxTime
  /\ fetchRankings Sample.env Sample.lastDay
     = (Normal tt,
        {| rankings := [];
           loading := false;
           selectedDate := Some maxTime;
           trace :=
             [ConsoleError "Error fetching rankings:"
                "RangeError: Invalid time value"] |}).
Proof.
  split.
  - unfold validTime. vm_compute. discriminate.
  - apply (fetch_with_invalid_day_bound Sample.env Sample.lastDay).
    right. reflexivity.
Defined.

(** X5. A like-count request that is rejected, unlike one that comes back
    with an error, ends the whole cycle: the rankings stay as they were
    although the like-count request of every profile has been sent, and the
    reason of a rejected request is on the console. *)
Theorem likes_rejection_ends_cycle (env : Env) (w : World) (s e : Z)
  (data : list Profile) :
  startOfDay (zone env) (selectedDate w) = Some s ->
  endOfDay (zone env) (selectedDate w) = Some e ->
  profilesReply env = Resolved (Some data) None ->
  existsb (likesRejected env) data = true ->
  rankings (run (fetchRankings env) w) = rankings w
  /\ exists events,
       trace (run (fetchRankings env) w) = trace w ++ events
       /\ (forall p, In p data -> In (SelectLikes (profile_id p)) events)
       /\ exists p reason,
            In p data
            /\ likesReply env (profile_id p) = Rejected reason
            /\ In (ConsoleError "Error fetching rankings:" reason) events.
Proof.
  intros Hs He Hdata Hrej. unfold run.
  rewrite (fetchRankings_fetched _ _ _ _ _ Hs He Hdata).
  cbn [snd rankings trace].
  destruct (firstRejection env (arrivalOrder env data)) as [reason|]
    eqn:Hfirst.
  - split; [reflexivity|]. eexists. split; [reflexivity|]. split.
    + intros p Hp. right. apply in_or_app. left.
      assert (Hreq : In (SelectLikes (profile_id p))
                        (filter isRequest (likesEvents env data))).
      { rewrite likesEvents_requests.
        apply (in_map (fun q => SelectLikes (profile_id q))). exact Hp. }
      apply filter_In in Hreq. apply Hreq.
    + destruct (firstRejection_Some _ _ _ Hfirst) as [p [Hp Hreply]].
      exists p, reason. split; [exact Hp|]. split; [exact Hreply|].
      right. apply in_or_app. right. left. reflexivity.
  - apply firstRejection_None in Hfirst.
    exfalso. apply existsb_exists in Hrej. destruct Hrej as [p [Hp Hr]].
    rewrite forallb_forall in Hfirst. specialize (Hfirst p Hp).
    rewrite Hr in Hfirst. discriminate.
Qed.

Lemma likes_rejection_ends_cycle_witness :
  rankings (run (fetchRankings Cases.flaky) Sample.shown)
  = rankings Sample.shown
  /\ exists events,
       trace (run (fetchRankings Cases.flaky) Sample.shown)
       = trace Sample.shown ++ events
       /\ (forall p, In p [Sample.carol; Sample.bob; Sample.alice] ->
             In (SelectLikes (profile_id p)) events)
       /\ exists p reason,
            In p [Sample.carol; Sample.bob; Sample.alice]
            /\ likesReply Cases.flaky (profile_id p) = Rejected reason
            /\ In (ConsoleError "Error fetching rankings:" reason) events.
Proof.
  apply (likes_rejection_ends_cycle Cases.flaky Sample.shown
           1699920000000 1700006399999); reflexivity.
Defined.

(** X6. A cycle whose bulk query returns data sends one query for the
    profiles and then one like-count query for every profile of the reply,
    in the order of the reply, also for the profiles that will not be among
    the ten and whatever the like-count replies are. *)
Theorem fetch_sends_one_query_per_profile (env : Env) (w : World) (s e : Z)
  (data : list Profile) :
  startOfDay (zone env) (selectedDate w) = Some s ->
  endOfDay (zone env) (selectedDate w) = Some e ->
  profilesReply env = Resolved (Some data) None ->
  exists events,
    trace (run (fetchRankings env) w) = trace w ++ events
    /\ filter isRequest events
       = SelectProfiles :: map (fun p => SelectLikes (profile_id p)) data.
Proof.
  intros Hs He Hdata. unfold run.
  rewrite (fetchRankings_fetched _ _ _ _ _ Hs He Hdata).
  cbn [snd trace]. eexists. split; [reflexivity|].
  cbn [filter isRequest]. rewrite filter_app, likesEvents_requests.
  destruct (firstRejection env (arrivalOrder env data)); cbn; rewrite app_nil_r; reflexivity.
Qed.

Lemma fetch_sends_one_query_per_profile_witness :
  exists events,
    trace (run (fetchRankings Cases.flaky) Sample.shown)
    = trace Sample.shown ++ events
    /\ filter isRequest events
       = SelectProfiles
         :: map (fun p => SelectLikes (profile_id p))
              [Sample.carol; Sample.bob; Sample.alice].
Proof.
  apply (fetch_sends_one_query_per_profile Cases.flaky Sample.shown
           1699920000000 1700006399999); reflexivity.
Defined.

(** ** The order of the rankings *)

Lemma filter_firstn_prefix {A} (f : A -> bool) (n : nat) (l : list A) :
  filter f l = filter f (firstn n l) ++ filter f (skipn n l).
Proof.
  rewrite <- filter_app, firstn_skipn. reflexivity.
Qed.

Lemma StronglySorted_app_order {A} (R : A -> A -> Prop) (l1 l2 : list A) :
  StronglySorted R (l1 ++ l2) ->
  forall x y, In x l1 -> In y l2 -> R x y.
Proof.
  induction l1 as [|a rest IH]; intros H x y Hx Hy; [contradiction|].
  cbn [app] in H. inversion H as [|a' l' Hrest Hall]. subst a' l'.
  destruct Hx as [<-|Hx].
  - rewrite Forall_forall in Hall. apply Hall, in_or_app. right. exact Hy.
  - apply IH; assumption.
Qed.

(** X7. Profiles with the same daily score are ranked in the order in
    which the fetch returned them: for every score, the rows of the
    rankings with that score are the first of the aggregated rows with that
    score, in the same order. *)
Theorem ties_keep_fetch_order (env : Env) (w : World) (s e : Z)
  (data : list Profile) (score : Z) :
  startOfDay (zone env) (selectedDate w) = Some s ->
  endOfDay (zone env) (selectedDate w) = Some e ->
  profilesReply env = Resolved (Some data) None ->
  forallb (fun p => negb (likesRejected env p)) data = true ->
  exists beyondTen,
    filter (fun r => daily_score r =? score) (keptStats env s e data)
    = filter (fun r => daily_score r =? score)
             (rankings (run (fetchRankings env) w))
      ++ beyondTen.
Proof.
  intros Hs He Hdata Hlikes. unfold run.
  rewrite (fetchRankings_ok _ _ _ _ _ Hs He Hdata Hlikes).
  cbn [snd rankings]. fold (keptStats env s e data).
  unfold sortedRankings.
  rewrite <- (sortBy_stable score (keptStats env s e data)).
  eexists. apply (filter_firstn_prefix _ 10).
Qed.

Lemma ties_keep_fetch_order_witness :
  exists beyondTen,
    filter (fun r => daily_score r =? 5)
           (keptStats Cases.tied 1699920000000 1700006399999
              [Sample.bob; Cases.bert; Sample.alice])
    = filter (fun r => daily_score r =? 5)
             (rankings (run (fetchRankings Cases.tied) Sample.mounted))
      ++ beyondTen.
Proof.
  apply (ties_keep_fetch_order Cases.tied Sample.mounted
           1699920000000 1700006399999); reflexivity.
Defined.

(** X8. The ten rows that are kept are the best ones: the aggregated rows
    are the rankings together with the rows cut off, which are all the
    rows beyond ten, and no row cut off has a higher daily score than a row
    of the rankings. *)
Theorem rows_cut_off_score_no_higher (env : Env) (w : World) (s e : Z)
  (data : list Profile) :
  startOfDay (zone env) (selectedDate w) = Some s ->
  endOfDay (zone env) (selectedDate w) = Some e ->
  profilesReply env = Resolved (Some data) None ->
  forallb (fun p => negb (likesRejected env p)) data = true ->
  exists cutOff,
    Permutation (keptStats env s e data)
                (rankings (run (fetchRankings env) w) ++ cutOff)
    /\ length cutOff = (length (keptProfiles env data) - 10)%nat
    /\ forall shown dropped,
         In shown (rankings (run (fetchRankings env) w)) ->
         In dropped cutOff ->
         daily_score dropped <= daily_score shown.
Proof.
  intros Hs He Hdata Hlikes. unfold run.
  rewrite (fetchRankings_ok _ _ _ _ _ Hs He Hdata Hlikes).
  cbn [snd rankings]. fold (keptStats env s e data).
  unfold sortedRankings.
  exists (skipn 10 (sortBy byDailyScore (keptStats env s e data))).
  split; [|split].
  - rewrite firstn_skipn. apply sortBy_perm.
  - rewrite length_skipn, sortBy_length. unfold keptStats.
    rewrite length_map. reflexivity.
  - intros shown dropped Hshown Hdropped.
    apply (StronglySorted_app_order scoreDescending _ _
             ltac:(rewrite firstn_skipn; apply sortBy_descending)
             shown dropped Hshown Hdropped).
Qed.

Lemma rows_cut_off_score_no_higher_witness :
  exists cutOff,
    Permutation (keptStats Cases.crowd 1699920000000 1700006399999
                   Cases.crowdProfiles)
                (rankings (run (fetchRankings Cases.crowd) Sample.mounted)
                 ++ cutOff)
    /\ length cutOff = 2%nat
    /\ forall shown dropped,
         In shown (rankings (run (fetchRankings Cases.crowd) Sample.mounted)) ->
         In dropped cutOff ->
         daily_score dropped <= daily_score shown.
Proof.
  apply (rows_cut_off_score_no_higher Cases.crowd Sample.mounted
           1699920000000 1700006399999 Cases.crowdProfiles); reflexivity.
Defined.

(** ** More on days *)

Lemma addDays_out_of_range (tz : Zone) (t n : Z) :
  n <> 0 ->
  ~ validTime (UTC tz (LocalTime tz t + n * msPerDay)) ->
  addDays tz (Some t) n = None.
Proof.
  intros Hn Hout. rewrite (addDays_wall_clock _ _ _ Hn).
  unfold TimeClip, validTime in *.
  destruct (Z.gtb_spec (Z.abs (UTC tz (LocalTime tz t + n * msPerDay)))
              maxTime); [reflexivity|].
  contradiction.
Qed.

Lemma nextButton_selectedDate (env : Env) (w : World) :
  selectedDate (run (nextButton env) w)
  = addDays (zone env) (selectedDate w) 1
  /\ loading (run (nextButton env) w) = false.
Proof.
  unfold run, nextButton, bind.
  change (handleNextDay env w)
    with (Normal tt, snd (handleNextDay env w)).
  cbv iota beta.
  destruct (fetchRankings_settles env (snd (handleNextDay env w)))
    as [_ [Hl [Hd _]]].
  unfold run in Hl, Hd. rewrite Hl, Hd. split; reflexivity.
Qed.

Lemma previousButton_selectedDate (env : Env) (w : World) :
  selectedDate (run (previousButton env) w)
  = addDays (zone env) (selectedDate w) (- 1)
  /\ loading (run (previousButton env) w) = false.
Proof.
  unfold run, previousButton, bind.
  change (handlePrevDay env w)
    with (Normal tt, snd (handlePrevDay env w)).
  cbv iota beta.
  destruct (fetchRankings_settles env (snd (handlePrevDay env w)))
    as [_ [Hl [Hd _]]].
  unfold run in Hl, Hd. rewrite Hl, Hd. split; reflexivity.
Qed.

(** X9. A click on "Next" and then one on "Previous", each with the fetch
    cycle that it starts, brings back the selected date, and so do
    "Previous" and then "Next": provided the date is the instant the zone
    gives for its own wall-clock time, and the zone has the wall-clock time
    of the day in between, at an instant within the range of Date. The
    component is not loading after them. (The rankings are those of the
    last fetch cycle.) *)
Theorem next_and_previous_undo_each_other (env1 env2 : Env) (w : World)
  (t : Z) :
  zone env2 = zone env1 ->
  selectedDate w = Some t ->
  validTime t ->
  UTC (zone env1) (LocalTime (zone env1) t) = t ->
  (keepsWallClock (zone env1) (LocalTime (zone env1) t + msPerDay) ->
   validTime (UTC (zone env1) (LocalTime (zone env1) t + msPerDay)) ->
   selectedDate (run (previousButton env2) (run (nextButton env1) w))
   = Some t
   /\ loading (run (previousButton env2) (run (nextButton env1) w)) = false)
  /\ (keepsWallClock (zone env1) (LocalTime (zone env1) t - msPerDay) ->
      validTime (UTC (zone env1) (LocalTime (zone env1) t - msPerDay)) ->
      selectedDate (run (nextButton env2) (run (previousButton env1) w))
      = Some t
      /\ loading (run (nextButton env2) (run (previousButton env1) w))
         = false).
Proof.
  intros Hzone Hw Ht Hcanon. split; intros Hkeeps Hvalid.
  - destruct (previousButton_selectedDate env2 (run (nextButton env1) w))
      as [Hd Hl].
    split; [|exact Hl].
    rewrite Hd. destruct (nextButton_selectedDate env1 w) as [-> _].
    rewrite Hw, Hzone.
    rewrite (addDays_wall_clock (zone env1) t 1) by discriminate.
    replace (LocalTime (zone env1) t + 1 * msPerDay)
      with (LocalTime (zone env1) t + msPerDay) by lia.
    rewrite (TimeClip_valid _ Hvalid).
    rewrite addDays_wall_clock by discriminate. rewrite Hkeeps.
    replace (LocalTime (zone env1) t + msPerDay + - 1 * msPerDay)
      with (LocalTime (zone env1) t) by lia.
    rewrite Hcanon. apply TimeClip_valid. exact Ht.
  - destruct (nextButton_selectedDate env2 (run (previousButton env1) w))
      as [Hd Hl].
    split; [|exact Hl].
    rewrite Hd. destruct (previousButton_selectedDate env1 w) as [-> _].
    rewrite Hw, Hzone.
    rewrite (addDays_wall_clock (zone env1) t (- 1)) by discriminate.
    replace (LocalTime (zone env1) t + - 1 * msPerDay)
      with (LocalTime (zone env1) t - msPerDay) by lia.
    rewrite (TimeClip_valid _ Hvalid).
    rewrite addDays_wall_clock by discriminate. rewrite Hkeeps.
    replace (LocalTime (zone env1) t - msPerDay + 1 * msPerDay)
      with (LocalTime (zone env1) t) by lia.
    rewrite Hcanon. apply TimeClip_valid. exact Ht.
Qed.

Lemma next_and_previous_undo_each_other_witness :
  (selectedDate (run (previousButton Cases.newYorkEnv)
                   (run (nextButton Cases.newYorkEnv) Cases.march9))
   = Some 1710000000000
   /\ loading (run (previousButton Cases.newYorkEnv)
                 (run (nextButton Cases.newYorkEnv) Cases.march9))
      = false)
  /\ (selectedDate (run (nextButton Cases.newYorkEnv)
                      (run (previousButton Cases.newYorkEnv) Cases.march9))
      = Some 1710000000000
      /\ loading (run (nextButton Cases.newYorkEnv)
                    (run (previousButton Cases.newYorkEnv) Cases.march9))
         = false).
Proof.
  destruct (next_and_previous_undo_each_other Cases.newYorkEnv
              Cases.newYorkEnv Cases.march9 1710000000000
              eq_refl eq_refl) as [Hnext Hprev].
  - unfold validTime. vm_compute. discriminate.
  - reflexivity.
  - split.
    + apply Hnext; [reflexivity|].
      unfold validTime. vm_compute. discriminate.
    + apply Hprev; [reflexivity|].
      unfold validTime. vm_compute. discriminate.
Defined.

Lemma day_bounds_gap (tz t0 s e : Z) :
  startOfDay tz (Some t0) = Some s ->
  endOfDay tz (Some t0) = Some e ->
  e - s = 86399999 /\ validTime s /\ validTime e.
Proof.
  unfold startOfDay, endOfDay. intros Hs He.
  apply TimeClip_Some in Hs. apply TimeClip_Some in He.
  destruct Hs as [Hs Hvs]. destruct He as [He Hve].
  subst s e. repeat split; try assumption.
  rewrite !fixedOffset_UTC. lia.
Qed.

(** X10. The bounds that a cycle filters with belong to the local calendar
    day of the selected date: they are 86399999 ms apart with the selected
    instant between them, and a log is counted for the day exactly when its
    completion date is a valid date on that calendar day. *)
Theorem logs_counted_are_those_of_the_day (tz t0 s e : Z) (log : WorkoutLog) :
  startOfDay tz (Some t0) = Some s ->
  endOfDay tz (Some t0) = Some e ->
  s <= t0 <= e
  /\ e - s = 86399999
  /\ (completedOn s e log = true
      <-> exists t, completed_at log = Some t
                    /\ localDay tz t = localDay tz t0).
Proof.
  intros Hs He.
  pose proof (day_bounds_enclose_the_day tz t0 s e) as Hday.
  assert (Ht0 : s <= t0 <= e) by (apply (Hday t0 Hs He); reflexivity).
  split; [exact Ht0|]. split.
  - apply (day_bounds_gap _ _ _ _ Hs He).
  - rewrite completedOn_withinDay. unfold withinDay.
    destruct (completed_at log) as [t|].
    + rewrite andb_true_iff, !Z.leb_le. split.
      * intro H. exists t. split; [reflexivity|].
        apply (Hday t Hs He). exact H.
      * intros [t' [Heq H]]. inversion Heq. subst t'.
        apply (Hday t Hs He). exact H.
    + split; [discriminate|]. intros [t [H _]]. discriminate.
Qed.

Lemma logs_counted_are_those_of_the_day_witness :
  1699916400000 <= Sample.today <= 1700002799999
  /\ 1700002799999 - 1699916400000 = 86399999
  /\ (completedOn 1699916400000 1700002799999
        {| total := Some 5; completed_at := Some 1699920000000 |} = true
      <-> exists t,
            Some 1699920000000 = Some t
            /\ localDay 3600000 t = localDay 3600000 Sample.today).
Proof.
  apply (logs_counted_are_those_of_the_day 3600000 Sample.today
           1699916400000 1700002799999
           {| total := Some 5; completed_at := Some 1699920000000 |});
    reflexivity.
Defined.

Lemma prev_at_invalid (env : Env) (w : World) (k : nat) :
  selectedDate w = None ->
  selectedDate (Nat.iter k (run (handlePrevDay env)) w) = None.
Proof.
  intro H. induction k as [|k IH]; [exact H|].
  rewrite Nat.iter_succ, selectedDate_prev, IH. reflexivity.
Qed.

Lemma next_at_invalid (env : Env) (w : World) (k : nat) :
  selectedDate w = None ->
  selectedDate (Nat.iter k (run (handleNextDay env)) w) = None.
Proof.
  intro H. induction k as [|k IH]; [exact H|].
  rewrite Nat.iter_succ, selectedDate_next, IH. reflexivity.
Qed.

(** X11. A step over the end of the range of Date cannot be taken back:
    "Next" from a date whose next day, as the zone gives it, is not in the
    range leaves an Invalid Date, no number of "Previous" or "Next" makes
    it a date again, and the component, once it is not loading, throws on
    render. *)
Theorem step_out_of_range_is_final (env : Env) (w : World) (t : Z) :
  selectedDate w = Some t ->
  ~ validTime (UTC (zone env) (LocalTime (zone env) t + msPerDay)) ->
  selectedDate (run (handleNextDay env) w) = None
  /\ (forall k : nat,
        selectedDate
          (Nat.iter k (run (handlePrevDay env)) (run (handleNextDay env) w))
        = None
        /\ selectedDate
             (Nat.iter k (run (handleNextDay env))
                (run (handleNextDay env) w))
           = None)
  /\ (loading w = false ->
      render (run (handleNextDay env) w)
      = Thrown "RangeError: Invalid time value").
Proof.
  intros Hw Hout.
  assert (Hnone : selectedDate (run (handleNextDay env) w) = None).
  { rewrite selectedDate_next, Hw. apply addDays_out_of_range.
    - discriminate.
    - replace (LocalTime (zone env) t + 1 * msPerDay)
        with (LocalTime (zone env) t + msPerDay) by lia.
      exact Hout. }
  split; [exact Hnone|]. split.
  - intro k. split; [apply prev_at_invalid | apply next_at_invalid];
      exact Hnone.
  - intro Hl. unfold render. rewrite Hnone.
    unfold run, handleNextDay, setSelectedDate. cbn [snd loading].
    rewrite Hl. reflexivity.
Qed.

Lemma step_out_of_range_is_final_witness :
  selectedDate (run (handleNextDay Sample.env) Sample.lastDay) = None
  /\ (forall k : nat,
        selectedDate
          (Nat.iter k (run (handlePrevDay Sample.env))
             (run (handleNextDay Sample.env) Sample.lastDay))
        = None
        /\ selectedDate
             (Nat.iter k (run (handleNextDay Sample.env))
                (run (handleNextDay Sample.env) Sample.lastDay))
           = None)
  /\ (loading Sample.lastDay = false ->
      render (run (handleNextDay Sample.env) Sample.lastDay)
      = Thrown "RangeError: Invalid time value").
Proof.
  apply (step_out_of_range_is_final Sample.env Sample.lastDay maxTime).
  - reflexivity.
  - unfold validTime. vm_compute. intro H. apply H. reflexivity.
Defined.

Lemma previousButton_run (env : Env) (w : World) :
  run (previousButton env) w
  = run (fetchRankings env) (run (handlePrevDay env) w).
Proof.
  unfold run, previousButton, bind.
  change (handlePrevDay env w) with (Normal tt, snd (handlePrevDay env w)).
  reflexivity.
Qed.

(** X12. A click on "Previous" fetches the scores of the local calendar
    day before, in any zone that has the wall-clock time of that day: when
    the cycle goes through, the rankings are the ten best of the kept
    profiles for the logs completed from 00:00:00.000 to 23:59:59.999 of
    that day, both read in the zone, however long the day is. *)
Theorem previous_day_scores_the_day_before (env : Env) (w : World)
  (t : Z) (data : list Profile) :
  selectedDate w = Some t ->
  keepsWallClock (zone env) (LocalTime (zone env) t - msPerDay) ->
  validTime (UTC (zone env) (LocalTime (zone env) t - msPerDay)) ->
  validTime (UTC (zone env) ((localDay (zone env) t - 1) * msPerDay)) ->
  validTime
    (UTC (zone env) ((localDay (zone env) t - 1) * msPerDay + 86399999)) ->
  profilesReply env = Resolved (Some data) None ->
  forallb (fun p => negb (likesRejected env p)) data = true ->
  rankings (run (previousButton env) w)
  = sortedRankings
      (keptStats env
         (UTC (zone env) ((localDay (zone env) t - 1) * msPerDay))
         (UTC (zone env) ((localDay (zone env) t - 1) * msPerDay + 86399999))
         data).
Proof.
  intros Hw Hkeeps Hvalid Hvs Hve Hdata Hlikes.
  rewrite previousButton_run.
  assert (Hsel : selectedDate (run (handlePrevDay env) w)
                 = Some (UTC (zone env) (LocalTime (zone env) t - msPerDay))).
  { rewrite selectedDate_prev, Hw, addDays_wall_clock by discriminate.
    replace (LocalTime (zone env) t + - 1 * msPerDay)
      with (LocalTime (zone env) t - msPerDay) by lia.
    apply TimeClip_valid. exact Hvalid. }
  assert (Hday : Day (LocalTime (zone env)
                        (UTC (zone env) (LocalTime (zone env) t - msPerDay)))
                 = localDay (zone env) t - 1).
  { rewrite Hkeeps. unfold localDay.
    replace (LocalTime (zone env) t - msPerDay)
      with (LocalTime (zone env) t + - 1 * msPerDay) by lia.
    rewrite Day_shift. lia. }
  unfold run.
  rewrite (fetchRankings_ok env _
             (UTC (zone env) ((localDay (zone env) t - 1) * msPerDay))
             (UTC (zone env)
                ((localDay (zone env) t - 1) * msPerDay + 86399999))
             data).
  - reflexivity.
  - unfold run in Hsel. rewrite Hsel. unfold startOfDay. rewrite Hday.
    apply TimeClip_valid. exact Hvs.
  - unfold run in Hsel. rewrite Hsel. unfold endOfDay. rewrite Hday.
    apply TimeClip_valid. exact Hve.
  - exact Hdata.
  - exact Hlikes.
Qed.

Lemma previous_day_scores_the_day_before_witness :
  rankings (run (previousButton Cases.newYorkEnv) Cases.march10)
  = sortedRankings
      (keptStats Cases.newYorkEnv 1709960400000 1710046799999
         [Cases.frank; Sample.alice])
  /\ map daily_score
       (rankings (run (previousButton Cases.newYorkEnv) Cases.march10))
     = [8; 0].
Proof.
  split; [|reflexivity].
  apply (previous_day_scores_the_day_before Cases.newYorkEnv Cases.march10
           1710082800000 [Cases.frank; Sample.alice]);
    try reflexivity; unfold validTime; vm_compute; discriminate.
Defined.

(** ** More on the like action *)

Lemma applyLike_scoreLine (profileId : string) (rs : list UserRanking) :
  map scoreLine (applyLike profileId rs) = map scoreLine rs.
Proof.
  unfold applyLike. rewrite map_map. apply map_ext. intro r.
  destruct (String.eqb (id r) profileId); reflexivity.
Qed.

Lemma revertLike_scoreLine (profileId : string) (rs : list UserRanking) :
  map scoreLine (revertLike profileId rs) = map scoreLine rs.
Proof.
  unfold revertLike. rewrite map_map. apply map_ext. intro r.
  destruct (String.eqb (id r) profileId); reflexivity.
Qed.

Lemma scoreLine_daily_score (x y : UserRanking) :
  scoreLine x = scoreLine y -> daily_score x = daily_score y.
Proof.
  unfold scoreLine. intro H. congruence.
Qed.

Lemma descending_by_scoreLine (l1 l2 : list UserRanking) :
  map scoreLine l1 = map scoreLine l2 ->
  StronglySorted scoreDescending l1 ->
  StronglySorted scoreDescending l2.
Proof.
  intros Hmap Hsorted. revert l2 Hmap.
  induction Hsorted as [|x rest Hrest IH Hx]; intros [|y l2] Hmap;
    try discriminate; [constructor|].
  cbn [map] in Hmap.
  assert (Hhead : daily_score x = daily_score y)
    by (apply scoreLine_daily_score; congruence).
  assert (Htail : map scoreLine rest = map scoreLine l2) by congruence.
  constructor; [apply IH; exact Htail|].
  clear IH Hrest Hmap. revert l2 Htail.
  induction Hx as [|z rest Hz Hrest IHx]; intros [|z2 l2] Htail;
    try discriminate; constructor.
  - cbn [map] in Htail.
    assert (Hz2 : daily_score z = daily_score z2)
      by (apply scoreLine_daily_score; congruence).
    unfold scoreDescending in *. lia.
  - apply IHx. cbn [map] in Htail. congruence.
Qed.

(** The rankings that the like action can leave. *)
Lemma handleLike_outcomes (env : Env) (profileId : string) (w : World) :
  fst (handleLike env profileId w) = Normal tt
  /\ loading (run (handleLike env profileId) w) = loading w
  /\ selectedDate (run (handleLike env profileId) w) = selectedDate w
  /\ (rankings (run (handleLike env profileId) w) = rankings w
      \/ rankings (run (handleLike env profileId) w)
         = applyLike profileId (rankings w)
      \/ rankings (run (handleLike env profileId) w)
         = revertLike profileId (applyLike profileId (rankings w))).
Proof.
  unfold run.
  destruct (user env) as [viewer|] eqn:Hu.
  - destruct (insertReply env) as [data [err|]|reason] eqn:Hr.
    + rewrite (handleLike_error _ _ _ _ _ _ Hu Hr).
      cbn [fst snd rankings loading selectedDate].
      repeat split. right. right. reflexivity.
    + rewrite (handleLike_inserted _ _ _ _ _ Hu Hr).
      cbn [fst snd rankings loading selectedDate].
      repeat split. right. left. reflexivity.
    + rewrite (handleLike_rejected _ _ _ _ _ Hu Hr).
      cbn [fst snd rankings loading selectedDate].
      repeat split. right. left. reflexivity.
  - rewrite (handleLike_anonymous _ _ _ Hu).
    cbn [fst snd addTrace rankings loading selectedDate].
    repeat split. left. reflexivity.
Qed.

(** X13. An insert that comes back with an error is taken back completely:
    for a row whose button was enabled the rankings are those of before the
    click, and what is left of the click is the request, one console line
    and the alert. *)
Theorem like_error_is_taken_back (env : Env) (profileId : string)
  (w : World) (viewer : User) (data : option unit) (err : string) :
  user env = Some viewer ->
  insertReply env = Resolved data (Some err) ->
  (forall r, In r (rankings w) -> id r = profileId -> hasLiked r = false) ->
  rankings (run (handleLike env profileId) w) = rankings w
  /\ trace (run (handleLike env profileId) w)
     = trace w
       ++ [InsertLike (user_id viewer) profileId (now env);
           ConsoleError "Error liking profile:" err;
           Alert "Failed to like profile. Please try again."].
Proof.
  intros Hu Hr Hfresh. unfold run.
  rewrite (handleLike_error _ _ _ _ _ _ Hu Hr). cbn [snd rankings trace].
  split; [|reflexivity].
  apply revertLike_applyLike. exact Hfresh.
Qed.

Lemma like_error_is_taken_back_witness :
  rankings (run (handleLike Cases.refused "bob") Sample.shown)
  = rankings Sample.shown
  /\ trace (run (handleLike Cases.refused "bob") Sample.shown)
     = trace Sample.shown
       ++ [InsertLike (user_id Sample.viewer) "bob" (now Cases.refused);
           ConsoleError "Error liking profile:" "duplicate key";
           Alert "Failed to like profile. Please try again."].
Proof.
  apply (like_error_is_taken_back Cases.refused "bob" Sample.shown
           Sample.viewer None "duplicate key").
  - reflexivity.
  - reflexivity.
  - intros r [<-|[<-|[]]] _; reflexivity.
Defined.

(** X14. Whatever becomes of it, the like action never throws and touches
    nothing but likes: the rows keep their number, their order, their ids,
    names and scores, so rankings that were in descending order of daily
    score still are; [loading] and the selected date stay as they were. *)
Theorem like_touches_only_likes (env : Env) (profileId : string)
  (w : World) :
  fst (handleLike env profileId w) = Normal tt
  /\ map scoreLine (rankings (run (handleLike env profileId) w))
     = map scoreLine (rankings w)
  /\ (StronglySorted scoreDescending (rankings w) ->
      StronglySorted scoreDescending
        (rankings (run (handleLike env profileId) w)))
  /\ loading (run (handleLike env profileId) w) = loading w
  /\ selectedDate (run (handleLike env profileId) w) = selectedDate w.
Proof.
  destruct (handleLike_outcomes env profileId w)
    as [Hn [Hl [Hd Hrs]]].
  assert (Hlines : map scoreLine (rankings (run (handleLike env profileId) w))
                   = map scoreLine (rankings w)).
  { destruct Hrs as [->|[->| ->]].
    - reflexivity.
    - apply applyLike_scoreLine.
    - rewrite revertLike_scoreLine. apply applyLike_scoreLine. }
  repeat split; try assumption.
  apply descending_by_scoreLine. symmetry. exact Hlines.
Qed.

(** X15. A row that has been liked cannot be liked a second time: after a
    click on the enabled button of a row whose insert is not answered with
    an error, every row with that id has [hasLiked] set, and a click on its
    button changes nothing and sends nothing. *)
Theorem liked_row_cannot_be_liked_again (env : Env) (row : UserRanking)
  (w : World) (viewer : User) :
  user env = Some viewer ->
  (forall data err, insertReply env <> Resolved data (Some err)) ->
  hasLiked row = false ->
  forall again,
    In again (rankings (run (likeButton env row) w)) ->
    id again = id row ->
    hasLiked again = true
    /\ likeButton env again (run (likeButton env row) w)
       = (Normal tt, run (likeButton env row) w).
Proof.
  intros Hu Hnoerr Hfresh again Hin Hid.
  assert (Hliked : hasLiked again = true).
  { unfold run, likeButton in Hin. rewrite Hfresh in Hin.
    destruct (insertReply env) as [data [err|]|reason] eqn:Hr.
    - exfalso. apply (Hnoerr data err). reflexivity.
    - rewrite (handleLike_inserted _ _ _ _ _ Hu Hr) in Hin.
      cbn [snd rankings] in Hin. unfold applyLike in Hin.
      apply in_map_iff in Hin. destruct Hin as [r [Hr' _]].
      destruct (String.eqb_spec (id r) (id row)) as [Heq|Hne].
      + subst again. reflexivity.
      + subst again. contradiction.
    - rewrite (handleLike_rejected _ _ _ _ _ Hu Hr) in Hin.
      cbn [snd rankings] in Hin. unfold applyLike in Hin.
      apply in_map_iff in Hin. destruct Hin as [r [Hr' _]].
      destruct (String.eqb_spec (id r) (id row)) as [Heq|Hne].
      + subst again. reflexivity.
      + subst again. contradiction. }
  split; [exact Hliked|].
  apply likeButton_disabled. exact Hliked.
Qed.

Lemma liked_row_cannot_be_liked_again_witness :
  Forall
    (fun again =>
       id again = "bob" ->
       hasLiked again = true
       /\ likeButton Sample.env again
            (run (likeButton Sample.env (Sample.row "bob" 0 false))
               Sample.shown)
          = (Normal tt,
             run (likeButton Sample.env (Sample.row "bob" 0 false))
               Sample.shown))
    (rankings (run (likeButton Sample.env (Sample.row "bob" 0 false))
                 Sample.shown)).
Proof.
  apply Forall_forall. intros again Hin.
  apply (liked_row_cannot_be_liked_again Sample.env
           (Sample.row "bob" 0 false) Sample.shown Sample.viewer).
  - reflexivity.
  - intros data err. discriminate.
  - reflexivity.
  - exact Hin.
Defined.

Lemma like_touches_only_likes_witness :
  StronglySorted scoreDescending
    (rankings (run (handleLike Sample.env "bob") Sample.shown)).
Proof.
  apply (like_touches_only_likes Sample.env "bob" Sample.shown).
  repeat constructor; unfold scoreDescending; simpl; lia.
Defined.

(** ** The board *)

Lemma mapFrom_length {A B} (f : A -> Z -> B) (k : Z) (l : list A) :
  length (mapFrom f k l) = length l.
Proof.
  revert k. induction l as [|x rest IH]; intro k; [reflexivity|].
  cbn [mapFrom length]. rewrite IH. reflexivity.
Qed.

Lemma mapFrom_nth_error {A B} (f : A -> Z -> B) (k : Z) (l : list A)
  (i : nat) :
  nth_error (mapFrom f k l) i
  = option_map (fun x => f x (k + Z.of_nat i)) (nth_error l i).
Proof.
  revert k i. induction l as [|x rest IH]; intros k [|i];
    cbn [mapFrom nth_error option_map]; try reflexivity.
  - f_equal. f_equal. lia.
  - rewrite IH. destruct (nth_error rest i); cbn [option_map];
      [|reflexivity].
    f_equal. f_equal. lia.
Qed.

Lemma iconOf_iconAt (i : nat) : iconOf (Z.of_nat i) = iconAt i.
Proof.
  destruct i as [|[|[|i]]]; try reflexivity.
  unfold iconOf, iconAt.
  destruct (Z.eqb_spec (Z.of_nat (S (S (S i)))) 0); [lia|].
  destruct (Z.eqb_spec (Z.of_nat (S (S (S i)))) 1); [lia|].
  destruct (Z.eqb_spec (Z.of_nat (S (S (S i)))) 2); [lia|].
  reflexivity.
Qed.

Lemma render_board (w : World) (t : Z) :
  loading w = false ->
  selectedDate w = Some t ->
  render w
  = Normal (Board t (mapFrom rowView 0 (rankings w))
              (if Z.of_nat (length (rankings w)) =? 0
               then Some t else None)).
Proof.
  intros Hl Hd. unfold render. rewrite Hl, Hd. reflexivity.
Qed.

(** X16. Once loaded, with a valid selected date, the board has one row for
    each ranking, in the order of the rankings, and the row at position i
    (from 0) carries the data of the ranking at that position: the trophy,
    the silver and the bronze medal at the first three positions, the rank
    i + 1 from the fourth on, and a like button that is disabled exactly
    when the ranking has [hasLiked] set. *)
Theorem board_ranks_by_position (w : World) (t : Z) :
  loading w = false ->
  selectedDate w = Some t ->
  exists rows fallback,
    render w = Normal (Board t rows fallback)
    /\ length rows = length (rankings w)
    /\ forall i user,
         nth_error (rankings w) i = Some user ->
         exists v,
           nth_error rows i = Some v
           /\ rowKey v = id user
           /\ points v = daily_score user
           /\ likeCount v = likes user
           /\ likeDisabled v = hasLiked user
           /\ rankIcon v = iconAt i.
Proof.
  intros Hl Hd. rewrite (render_board _ _ Hl Hd).
  eexists. eexists. split; [reflexivity|]. split.
  - apply mapFrom_length.
  - intros i user Hi.
    exists (rowView user (Z.of_nat i)).
    rewrite mapFrom_nth_error, Hi. cbn [option_map].
    repeat split. apply iconOf_iconAt.
Qed.

Lemma board_ranks_by_position_witness :
  exists rows fallback,
    render Sample.shown = Normal (Board Sample.today rows fallback)
    /\ length rows = length (rankings Sample.shown)
    /\ forall i user,
         nth_error (rankings Sample.shown) i = Some user ->
         exists v,
           nth_error rows i = Some v
           /\ rowKey v = id user
           /\ points v = daily_score user
           /\ likeCount v = likes user
           /\ likeDisabled v = hasLiked user
           /\ rankIcon v = iconAt i.
Proof.
  apply (board_ranks_by_position Sample.shown Sample.today); reflexivity.
Defined.

Lemma mapFrom_In {A B} (f : A -> Z -> B) (k : Z) (l : list A) (v : B) :
  In v (mapFrom f k l) ->
  exists i x, nth_error l i = Some x /\ v = f x (k + Z.of_nat i).
Proof.
  intro H. apply In_nth_error in H. destruct H as [i Hi].
  rewrite mapFrom_nth_error in Hi.
  destruct (nth_error l i) as [x|] eqn:Hx; [|discriminate].
  cbn [option_map] in Hi. injection Hi as <-.
  exists i, x. split; [exact Hx | reflexivity].
Qed.

Lemma sorted_head_is_best (l : list UserRanking) (first : UserRanking) :
  StronglySorted scoreDescending l ->
  nth_error l 0 = Some first ->
  forall r, In r l -> daily_score r <= daily_score first.
Proof.
  intros Hsorted Hfirst r Hr.
  destruct l as [|x rest]; [discriminate|].
  inversion Hfirst. subst x.
  inversion Hsorted as [|x' l' _ Hall]. subst x' l'.
  destruct Hr as [<-|Hr]; [lia|].
  rewrite Forall_forall in Hall. apply (Hall r Hr).
Qed.

Lemma firstn_head {A} (n : nat) (l : list A) (x : A) :
  nth_error (firstn (S n) l) 0 = Some x -> nth_error l 0 = Some x.
Proof.
  destruct l; [discriminate | exact (fun H => H)].
Qed.

(** X17. After a fetch cycle that goes through, the row that gets the
    trophy is a best one among all the profiles kept, not only among the
    ten on the board: no kept profile has a daily score above the points
    shown next to the trophy. *)
Theorem trophy_goes_to_best_daily_score (env : Env) (w : World) (s e : Z)
  (data : list Profile) :
  startOfDay (zone env) (selectedDate w) = Some s ->
  endOfDay (zone env) (selectedDate w) = Some e ->
  profilesReply env = Resolved (Some data) None ->
  forallb (fun p => negb (likesRejected env p)) data = true ->
  exists label rows fallback,
    render (run (fetchRankings env) w) = Normal (Board label rows fallback)
    /\ forall v, In v rows -> rankIcon v = GoldTrophy ->
         forall p, In p (keptProfiles env data) ->
           daily_score (userStat s e p (likesDataOf env p)) <= points v.
Proof.
  intros Hs He Hdata Hlikes.
  assert (Hd : exists t, selectedDate w = Some t)
    by (destruct (selectedDate w) as [t|]; [eauto | discriminate]).
  destruct Hd as [t Hd].
  unfold run. rewrite (fetchRankings_ok _ _ _ _ _ Hs He Hdata Hlikes).
  cbn [snd]. rewrite (render_board _ t); [|reflexivity | exact Hd].
  eexists. eexists. eexists. split; [reflexivity|].
  cbn [rankings]. fold (keptStats env s e data).
  intros v Hv Hicon p Hp.
  apply mapFrom_In in Hv. destruct Hv as [i [first [Hi ->]]].
  cbn [rowView rankIcon points] in *.
  replace (0 + Z.of_nat i) with (Z.of_nat i) in Hicon by lia.
  rewrite iconOf_iconAt in Hicon.
  destruct i as [|[|[|i]]]; try discriminate.
  unfold sortedRankings in Hi. apply firstn_head in Hi.
  apply (sorted_head_is_best _ _ (sortBy_descending _) Hi).
  apply sortBy_In. unfold keptStats.
  apply (in_map (fun q => userStat s e q (likesDataOf env q))). exact Hp.
Qed.

Lemma trophy_goes_to_best_daily_score_witness :
  exists label rows fallback,
    render (run (fetchRankings Sample.env) Sample.mounted)
    = Normal (Board label rows fallback)
    /\ forall v, In v rows -> rankIcon v = GoldTrophy ->
         forall p,
           In p (keptProfiles Sample.env
                   [Sample.dave; Sample.carol; Sample.bob; Sample.alice]) ->
           daily_score (userStat 1699920000000 1700006399999 p
                          (likesDataOf Sample.env p))
           <= points v.
Proof.
  apply (trophy_goes_to_best_daily_score Sample.env Sample.mounted
           1699920000000 1700006399999); reflexivity.
Defined.

(** X18. After a fetch cycle that goes through, the board has a row for
    each of the first ten kept profiles whatever their scores are, and the
    line "No rankings available" is shown exactly when no profile is kept:
    a day on which nobody trained shows the profiles with 0 points, not
    that line. *)
Theorem no_rankings_line_only_without_profiles (env : Env) (w : World)
  (s e : Z) (data : list Profile) :
  startOfDay (zone env) (selectedDate w) = Some s ->
  endOfDay (zone env) (selectedDate w) = Some e ->
  profilesReply env = Resolved (Some data) None ->
  forallb (fun p => negb (likesRejected env p)) data = true ->
  exists label rows fallback,
    render (run (fetchRankings env) w) = Normal (Board label rows fallback)
    /\ length rows = Nat.min 10 (length (keptProfiles env data))
    /\ (fallback = None <-> keptProfiles env data <> [])
    /\ ((forall p, In p data -> spec_daily_score s e (logsOf p) = 0) ->
        forall v, In v rows -> points v = 0).
Proof.
  intros Hs He Hdata Hlikes.
  assert (Hd : exists t, selectedDate w = Some t)
    by (destruct (selectedDate w) as [t|]; [eauto | discriminate]).
  destruct Hd as [t Hd].
  unfold run. rewrite (fetchRankings_ok _ _ _ _ _ Hs He Hdata Hlikes).
  cbn [snd]. rewrite (render_board _ t); [|reflexivity | exact Hd].
  eexists. eexists. eexists. split; [reflexivity|].
  cbn [rankings]. fold (keptStats env s e data).
  assert (Hlen : length (sortedRankings (keptStats env s e data))
                 = Nat.min 10 (length (keptProfiles env data)))
    by (rewrite sortedRankings_length; unfold keptStats;
        rewrite length_map; reflexivity).
  split; [rewrite mapFrom_length; exact Hlen|]. split.
  - rewrite Hlen.
    destruct (keptProfiles env data) as [|p rest]; cbn [length].
    + split; [discriminate | intro H; contradiction H; reflexivity].
    + split; [discriminate|]. intros _.
      destruct (Z.eqb_spec (Z.of_nat (Nat.min 10 (S (length rest)))) 0);
        [lia | reflexivity].
  - intros Hzero v Hv.
    apply mapFrom_In in Hv. destruct Hv as [i [r [Hi ->]]].
    cbn [rowView points].
    apply nth_error_In, sortedRankings_In in Hi.
    unfold keptStats in Hi. apply in_map_iff in Hi.
    destruct Hi as [p [<- Hp]].
    rewrite daily_score_userStat. apply Hzero.
    unfold keptProfiles in Hp. apply filter_In in Hp. apply Hp.
Qed.

Lemma no_rankings_line_only_without_profiles_witness :
  exists label rows fallback,
    render (run (fetchRankings Cases.restDay) Sample.mounted)
    = Normal (Board label rows fallback)
    /\ length rows
       = Nat.min 10 (length (keptProfiles Cases.restDay
                               [Cases.erin; Sample.carol]))
    /\ (fallback = None
        <-> keptProfiles Cases.restDay [Cases.erin; Sample.carol] <> [])
    /\ ((forall p, In p [Cases.erin; Sample.carol] ->
           spec_daily_score 1699920000000 1700006399999 (logsOf p) = 0) ->
        forall v, In v rows -> points v = 0).
Proof.
  apply (no_rankings_line_only_without_profiles Cases.restDay Sample.mounted
           1699920000000 1700006399999); reflexivity.
Defined.

(** X19. With a viewer logged in, the like action sends exactly one
    request whatever the reply is and whether or not the profile is on the
    board: the insert of a like record with the viewer's id, the id of the
    profile and the time of the click. *)
Theorem like_sends_one_insert (env : Env) (profileId : string) (w : World)
  (viewer : User) :
  user env = Some viewer ->
  exists events,
    trace (run (handleLike env profileId) w) = trace w ++ events
    /\ filter isRequest events
       = [InsertLike (user_id viewer) profileId (now env)].
Proof.
  intro Hu. unfold run.
  destruct (insertReply env) as [data [err|]|reason] eqn:Hr.
  - rewrite (handleLike_error _ _ _ _ _ _ Hu Hr).
    cbn [snd trace]. eexists. split; reflexivity.
  - rewrite (handleLike_inserted _ _ _ _ _ Hu Hr).
    cbn [snd trace]. eexists. split; reflexivity.
  - rewrite (handleLike_rejected _ _ _ _ _ Hu Hr).
    cbn [snd trace]. eexists. split; reflexivity.
Qed.

Lemma like_sends_one_insert_witness :
  exists events,
    trace (run (handleLike Sample.offline "nobody") Sample.shown)
    = trace Sample.shown ++ events
    /\ filter isRequest events
       = [InsertLike (user_id Sample.viewer) "nobody" (now Sample.offline)].
Proof.
  apply (like_sends_one_insert Sample.offline "nobody" Sample.shown
           Sample.viewer).
  reflexivity.
Defined.
